(** * Movie_Review_Project: the authentication routes

    A shallow embedding of [backend/routes/auth.js]: the three route
    handlers [POST /signup], [POST /signin] and [POST /signout], the
    express-validator chains in front of them, and the collaborators
    they call (the [User] collection, bcryptjs, jsonwebtoken, the Express
    response object).

    A request carries five objects the validator reads ([req.body],
    [req.cookies], [req.headers], [req.params], [req.query]); each is a
    finite map from property names to JavaScript values, and a property
    that is not set reads as [None], JavaScript's [undefined].  A string
    is held as its UTF-8 text.  The [User] collection is a list of
    documents in insertion order.  Handlers are computations in a
    state-and-exception monad whose state is the world a request can
    touch plus the response under construction.

    What the libraries do on strings is written out.  What they do on
    other values, and what depends on the release in use, is a parameter
    of the development: every result holds whatever those parameters
    are. *)

From Stdlib Require Import ZArith Lia Ascii String.
From stdpp Require Import base option list strings gmap.

Open Scope string_scope.
Open Scope list_scope.

(** ** Requests and responses *)

(** A value as the body, cookie and query parsers deliver it.  A number
    is held as its literal. *)
#[local] Unset Elimination Schemes.
Inductive JsValue :=
| JString (s : string)
| JNumber (literal : string)
| JBoolean (b : bool)
| JNull
| JArray (items : list JsValue)
| JObject (members : list (string * JsValue)).
#[local] Set Elimination Schemes.

(** JavaScript's [typeof]. *)
Definition typeof (v : option JsValue) : string :=
  match v with
  | None => "undefined"
  | Some (JString _) => "string"
  | Some (JNumber _) => "number"
  | Some (JBoolean _) => "boolean"
  | Some JNull => "object"
  | Some (JArray _) => "object"
  | Some (JObject _) => "object"
  end.

(** [req.body] as parsed by [express.json()] / [bodyParser.urlencoded],
    [req.cookies] as filled by [cookieParser()], and the headers, route
    parameters and query string Express provides. *)
Record Request := mkRequest {
  body : gmap string JsValue;
  cookies : gmap string JsValue;
  headers : gmap string JsValue;
  params : gmap string JsValue;
  query : gmap string JsValue
}.

(** One element of the [errors] array of a 400 response.  The validator
    reports [{ value, msg, param, location }]; the handlers' own errors
    are [{ msg }] only. *)
Inductive ErrorItem :=
| FieldError (value : option JsValue) (msg param location : string)
| MsgOnly (msg : string).

(** What a handler sends: [res.json({ errors })], [res.json({ token })],
    [res.json({ msg })] or [res.send(text)]. *)
Inductive Reply :=
| JsonErrors (errors : list ErrorItem)
| JsonToken (token : string)
| JsonMsg (msg : string)
| Text (text : string).

Record CookieOptions := mkCookieOptions {
  httpOnly : bool;
  secure : bool
}.

(** The [Set-Cookie] effects of [res.cookie] and [res.clearCookie]. *)
Inductive SetCookie :=
| CookieSet (name value : string) (options : CookieOptions)
| CookieClear (name : string).

Record Response := mkResponse {
  statusCode : Z;
  set_cookies : list SetCookie;
  sent : option Reply
}.

(** A response object as Express hands it to a handler. *)
Definition fresh_response : Response :=
  {| statusCode := 200; set_cookies := []; sent := None |}.

(** ** express-validator *)

(** The locations [check()] looks a field up in, in this order. *)
Inductive Location :=
| Body
| Cookies
| Headers
| Params
| Query.

Definition locations : list Location := [Body; Cookies; Headers; Params; Query].

Definition location_name (l : Location) : string :=
  match l with
  | Body => "body"
  | Cookies => "cookies"
  | Headers => "headers"
  | Params => "params"
  | Query => "query"
  end.

(** [req[location]] *)
Definition bag (req : Request) (l : Location) : gmap string JsValue :=
  match l with
  | Body => body req
  | Cookies => cookies req
  | Headers => headers req
  | Params => params req
  | Query => query req
  end.

(** [String.prototype.toLowerCase] on the ASCII letters. *)
Definition lower (a : ascii) : ascii :=
  let n := nat_of_ascii a in
  if bool_decide (65 <= n /\ n <= 90) then ascii_of_nat (n + 32) else a.

Fixpoint toLowerCase (s : string) : string :=
  match s with
  | String a s' => String (lower a) (toLowerCase s')
  | EmptyString => EmptyString
  end.

(** A field as found in one location. *)
Record FieldInstance := mkInstance {
  location : Location;
  path : string;
  value : option JsValue
}.

(** [expandField]: header names are looked up in lower case. *)
Definition expandField (req : Request) (field : string) (l : Location) : FieldInstance :=
  let p := match l with
           | Headers => toLowerCase field
           | _ => field
           end in
  {| location := l; path := p; value := bag req l !! p |}.

(** [selectFields]: one instance per location. *)
Definition selectFields (req : Request) (field : string) : list FieldInstance :=
  map (expandField req field) locations.

Definition defined (i : FieldInstance) : bool :=
  match value i with
  | Some _ => true
  | None => false
  end.

(** [context.getData()]: with several locations, every instance that
    has a value must pass; when none has one, the first instance is
    kept for the error report. *)
Definition getData (instances : list FieldInstance) : list FieldInstance :=
  match List.filter defined instances with
  | [] => take 1 instances
  | withValue => withValue
  end.

(** The validators the chains of this file use: three of validator.js,
    run on strings, and [exists()], run on the value itself. *)
Inductive StandardValidator :=
| isEmpty
| isEmail
| isLength (min : nat).

Inductive ContextItem :=
| StandardValidation (validator : StandardValidator) (negated : bool)
| CustomValidation_exists (negated : bool).

(** A chain [check(field, message)] followed by validators, each
    possibly under [.not()]. *)
Record Chain := mkChain {
  field : string;
  message : string;
  stack : list ContextItem
}.

(** The validation context a chain leaves on the request. *)
Record Context := mkContext {
  ctx_field : string;
  ctx_errors : list ErrorItem
}.

Section Validation.

(** validator.js's [isEmail] with its default options. *)
Variable email_syntax : string -> bool.
(** The length validator.js's [isLength] measures: the characters of
    the string, a surrogate pair counting once. *)
Variable char_count : string -> nat.
(** What a standard validation is run on for a value that is not a
    string: the values reported and their [toString] forms (an array
    gives one per element). *)
Variable stringify_other : JsValue -> list (option JsValue * string).

(** What a standard validation is run on: a string as it is, a missing
    value as the empty string. *)
Definition seen (v : option JsValue) : list (option JsValue * string) :=
  match v with
  | None => [(None, "")]
  | Some (JString s) => [(v, s)]
  | Some other => stringify_other other
  end.

Definition verdict (v : StandardValidator) (s : string) : bool :=
  match v with
  | isEmpty => bool_decide (String.length s = 0)
  | isEmail => email_syntax s
  | isLength min => bool_decide (min <= char_count s)
  end.

(** A standard validation adds an error when [!verdict === !negated]. *)
Definition standard_fails (v : StandardValidator) (negated : bool) (s : string) : bool :=
  bool_decide (negb (verdict v s) = negb negated).

(** [exists()] is [value => value !== undefined]; a custom validation
    fails when [negated ? result : !result]. *)
Definition exists_fails (negated : bool) (v : option JsValue) : bool :=
  let result := match v with Some _ => true | None => false end in
  if negated then result else negb result.

Definition field_error (c : Chain) (i : FieldInstance) (reported : option JsValue)
    : ErrorItem :=
  FieldError reported (message c) (path i) (location_name (location i)).

(** [context.addError] *)
Definition addError (failed : bool) (e : ErrorItem) (errors : list ErrorItem)
    : list ErrorItem :=
  if failed then errors ++ [e] else errors.

(** One context item run on one instance, pushing onto the context's
    error array. *)
Definition run_item (c : Chain) (item : ContextItem) (errors : list ErrorItem)
    (i : FieldInstance) : list ErrorItem :=
  match item with
  | StandardValidation v negated =>
      fold_left
        (fun errs vs => addError (standard_fails v negated (snd vs))
                          (field_error c i (fst vs)) errs)
        (seen (value i)) errors
  | CustomValidation_exists negated =>
      addError (exists_fails negated (value i)) (field_error c i (value i)) errors
  end.

(** The items of a chain in order, each run on every instance. *)
Fixpoint run_steps (c : Chain) (instances : list FieldInstance)
    (todo : list ContextItem) (errors : list ErrorItem) : list ErrorItem :=
  match todo with
  | [] => errors
  | item :: todo' =>
      run_steps c instances todo' (fold_left (run_item c item) instances errors)
  end.

(** A chain used as middleware: it selects the instances of its field
    and pushes its context onto the request's context array. *)
Definition run_chain (req : Request) (contexts : list Context) (c : Chain)
    : list Context :=
  contexts ++
    [ {| ctx_field := field c;
         ctx_errors :=
           run_steps c (getData (selectFields req (field c))) (stack c) [] |} ].

(** The middleware array of a route, run left to right. *)
Definition run_chains (chains : list Chain) (req : Request) : list Context :=
  fold_left (run_chain req) chains [].

(** [validationResult(req).array()]: the errors of all contexts. *)
Definition validationResult (contexts : list Context) : list ErrorItem :=
  flat_map ctx_errors contexts.

(** The two middleware arrays of [auth.js]. *)
Definition signup_checks : list Chain :=
  [ mkChain "fullName" "Full name is required" [StandardValidation isEmpty true];
    mkChain "username" "Username is required" [StandardValidation isEmpty true];
    mkChain "email" "Please include a valid email" [StandardValidation isEmail false];
    mkChain "password" "Please enter a password with 6 or more characters"
      [StandardValidation (isLength 6) false] ].

Definition signin_checks : list Chain :=
  [ mkChain "email" "Please include a valid email" [StandardValidation isEmail false];
    mkChain "password" "Password is required" [CustomValidation_exists false] ].

Definition signup_errors (req : Request) : list ErrorItem :=
  validationResult (run_chains signup_checks req).

Definition signin_errors (req : Request) : list ErrorItem :=
  validationResult (run_chains signin_checks req).

(** *** The validation rules as the specification words them *)

(** A rule is one validator of one chain. *)
Definition rules (chains : list Chain) : list (Chain * ContextItem) :=
  flat_map (fun c => map (fun item => (c, item)) (stack c)) chains.

(** The instances of a rule's field that a request submits. *)
Definition submitted (req : Request) (c : Chain) : list FieldInstance :=
  getData (selectFields req (field c)).

(** What a rule judges in one instance: the values it reports, each
    with whether it violates the rule. *)
Definition judged (item : ContextItem) (i : FieldInstance) : list (option JsValue * bool) :=
  match item with
  | StandardValidation v negated =>
      map (fun vs => (fst vs, standard_fails v negated (snd vs))) (seen (value i))
  | CustomValidation_exists negated => [(value i, exists_fails negated (value i))]
  end.

(** The errors of one rule: one per violation, instance by instance. *)
Definition rule_errors (req : Request) (r : Chain * ContextItem) : list ErrorItem :=
  flat_map
    (fun i => map (fun vb => field_error (fst r) i (fst vb))
                (List.filter snd (judged (snd r) i)))
    (submitted req (fst r)).


(** One error per violation of each rule, in rule order. *)
Definition spec_errors (chains : list Chain) (req : Request) : list ErrorItem :=
  flat_map (rule_errors req) (rules chains).

(** The strings the validators see for a field: every submitted
    instance, as stringified. *)
Definition checked (req : Request) (f : string) : list string :=
  flat_map (fun i => map snd (seen (value i))) (getData (selectFields req f)).

(** A request submits a field when some location defines it. *)
Definition somewhere (req : Request) (f : string) : Prop :=
  exists l, l ∈ locations /\ value (expandField req f l) <> None.

(** Two requests agree on a field when every location gives it the
    same value in both. *)
Definition agree_on (req req' : Request) (f : string) : Prop :=
  forall l, value (expandField req f l) = value (expandField req' f l).

End Validation.

(** JavaScript whitespace within the ASCII range, and [trim]. *)
Definition is_space (a : ascii) : bool :=
  let n := nat_of_ascii a in
  bool_decide (n = 32 \/ (9 <= n /\ n <= 13)).

Fixpoint trim_start (s : string) : string :=
  match s with
  | String a s' => if is_space a then trim_start s' else s
  | EmptyString => EmptyString
  end.

Definition trim (s : string) : string :=
  String.rev (trim_start (String.rev (trim_start s))).

(** The text of a submitted value: the string itself, and nothing for a
    value that is missing or not a string. *)
Definition text (v : option JsValue) : string :=
  match v with
  | Some (JString s) => s
  | _ => ""
  end.

(** The signup rules in the specification's words, on the body: names
    non-empty after trimming, a syntactically valid email, a password of
    six characters or more. *)
Definition spec_signup_valid (email_syntax : string -> bool)
    (char_count : string -> nat) (req : Request) : Prop :=
  trim (text (body req !! "fullName")) <> "" /\
  trim (text (body req !! "username")) <> "" /\
  email_syntax (text (body req !! "email")) = true /\
  6 <= char_count (text (body req !! "password")).

(** ** The world a request runs in *)

(** A document of the [User] collection.  A property that was never set
    is [None]. *)
Record User := mkUser {
  _id : string;
  fullName : option string;
  username : option string;
  email : option string;
  password : option string
}.

(** [user.password] *)
Definition password_of (u : User) : option string := password u.

Inductive Err :=
| Error (message : string)
| MongoServerError (code : Z) (message : string).

Definition err_message (e : Err) : string :=
  match e with
  | Error m => m
  | MongoServerError _ m => m
  end.

(** The calls a handler makes on its collaborators, in order. *)
Inductive Event :=
| FindOne (filter_email : option JsValue)
| GenSalt (rounds : nat)
| Hash
| Compare
| Save (doc : User)
| Sign (ok : bool).

(** What outlives a request: the collection, the records other requests
    commit while a signup is suspended between its lookup and its save,
    [process.env], the clock in seconds, and the number of random draws
    made so far. *)
Record World := mkWorld {
  users : list User;
  racing : list User;
  env : gmap string string;
  clock : Z;
  entropy : nat
}.

(** The state a handler threads: the world, the response object, the
    collaborator calls made, and what [console.error] printed. *)
Record St := mkSt {
  world : World;
  res : Response;
  effects : list Event;
  stderr : list string
}.

Definition set_world (f : World -> World) (s : St) : St :=
  {| world := f (world s); res := res s; effects := effects s; stderr := stderr s |}.

Definition set_res (f : Response -> Response) (s : St) : St :=
  {| world := world s; res := f (res s); effects := effects s; stderr := stderr s |}.

Definition set_users (f : list User -> list User) (w : World) : World :=
  {| users := f (users w); racing := racing w; env := env w;
     clock := clock w; entropy := entropy w |}.

(** ** Handlers as computations *)

Inductive Outcome (A : Type) :=
| Returned (a : A)
| Thrown (e : Err).
Arguments Returned {A} a.
Arguments Thrown {A} e.

(** A callback queued for a later turn of the event loop. *)
Definition Task : Type := St -> Outcome unit * St.

(** A computation returns or throws, changes the state, and may queue
    callbacks. *)
Definition M (A : Type) : Type := St -> Outcome A * St * list Task.

#[global] Instance M_ret : MRet M := fun A a s => (Returned a, s, []).

#[global] Instance M_bind : MBind M := fun A B k m s =>
  match m s with
  | (Returned a, s1, q1) =>
      match k a s1 with
      | (o, s2, q2) => (o, s2, q1 ++ q2)
      end
  | (Thrown e, s1, q1) => (Thrown e, s1, q1)
  end.

Definition throw {A} (e : Err) : M A := fun s => (Thrown e, s, []).

(** [try { m } catch (err) { h err }] *)
Definition try_catch {A} (m : M A) (h : Err -> M A) : M A := fun s =>
  match m s with
  | (Returned a, s1, q1) => (Returned a, s1, q1)
  | (Thrown e, s1, q1) =>
      match h e s1 with
      | (o, s2, q2) => (o, s2, q1 ++ q2)
      end
  end.

Definition get : M St := fun s => (Returned s, s, []).
Definition modify (f : St -> St) : M unit := fun s => (Returned tt, f s, []).

(** Queue [m] to run after the current turn. *)
Definition defer (m : M unit) : M unit := fun s =>
  (Returned tt, s, [fun s' => fst (m s')]).

Definition emit (e : Event) : M unit :=
  modify (fun s => {| world := world s; res := res s;
                      effects := effects s ++ [e]; stderr := stderr s |}).

(** *** The Express response object *)

Definition res_status (code : Z) : M unit :=
  modify (set_res (fun r =>
    {| statusCode := code; set_cookies := set_cookies r; sent := sent r |})).

Definition res_json (reply : Reply) : M unit :=
  modify (set_res (fun r =>
    {| statusCode := statusCode r; set_cookies := set_cookies r; sent := Some reply |})).

Definition res_send (text : string) : M unit := res_json (Text text).

Definition res_cookie (name value : string) (options : CookieOptions) : M unit :=
  modify (set_res (fun r =>
    {| statusCode := statusCode r;
       set_cookies := set_cookies r ++ [CookieSet name value options];
       sent := sent r |})).

Definition res_clearCookie (name : string) : M unit :=
  modify (set_res (fun r =>
    {| statusCode := statusCode r;
       set_cookies := set_cookies r ++ [CookieClear name];
       sent := sent r |})).

Definition console_error (line : string) : M unit :=
  modify (fun s => {| world := world s; res := res s;
                      effects := effects s; stderr := stderr s ++ [line] |}).

Definition process_env (name : string) : M (option string) :=
  s ← get; mret (env (world s) !! name).

(** *** The User collection *)

(** Modelled from the spec: the unique index on [email] that the schema
    of models/User declares; the schema is not among the sources.
    Emails are unique across the collection and the collection itself
    enforces it. *)
Definition email_taken (e : option string) (us : list User) : bool :=
  bool_decide (Exists (fun u => email u = e) us).

(** Modelled from the spec: an insert under that index, as the save of
    another request performs it: a record whose email is already held
    is not stored. *)
Definition insert_user (us : list User) (u : User) : list User :=
  if email_taken (email u) us then us else us ++ [u].

(** The requests served while this one is suspended: their records
    reach the collection, each under the same uniqueness rule. *)
Definition interleave : M unit :=
  modify (set_world (fun w =>
    {| users := fold_left insert_user (racing w) (users w); racing := [];
       env := env w; clock := clock w; entropy := entropy w |})).

(** One draw from the process's random source. *)
Definition draw : M nat :=
  s ← get;
  modify (set_world (fun w =>
    {| users := users w; racing := racing w; env := env w;
       clock := clock w; entropy := S (entropy w) |}));;
  mret (entropy (world s)).

(** A document under construction: its fields as cast, and the fields
    that failed to cast, which [save()] reports. *)
Record Document := mkDocument {
  doc : User;
  invalid : list (string * Err)
}.

(** The failures among the casts of named fields. *)
Fixpoint failures (casts : list (string * (Err + option string))) : list (string * Err) :=
  match casts with
  | [] => []
  | (name, inl e) :: casts' => (name, e) :: failures casts'
  | (_, inr _) :: casts' => failures casts'
  end.

(** ** bcryptjs, jsonwebtoken and the handlers *)

(** The claims of a signed token: the payload [{ user: { id } }] with
    the [iat] and [exp] that jsonwebtoken adds, in seconds. *)
Record Claims := mkClaims {
  user_id : string;
  iat : Z;
  exp : Z
}.

(** The outcome of serving one request: the final state, and the
    exceptions no handler caught. *)
Record Run := mkRun {
  final : St;
  uncaught : list Err
}.

(** JavaScript truthiness of a string-or-undefined. *)
Definition falsy (v : option string) : bool :=
  match v with
  | Some s => bool_decide (s = "")
  | None => true
  end.

(** [process.env] values read as the secret [jwt.sign] is given. *)
Definition toString (v : option string) : string :=
  match v with
  | Some s => s
  | None => ""
  end.

(** ['24h'] as jsonwebtoken's [timespan] reads it, in seconds. *)
Definition expiresIn_24h : Z := 24 * 60 * 60.

(** [errors.isEmpty()] *)
Definition no_errors (errors : list ErrorItem) : bool :=
  match errors with
  | [] => true
  | _ :: _ => false
  end.

Definition illegal_arguments (a b : string) : Err :=
  Error (String.append "Illegal arguments: "
           (String.append a (String.append ", " b))).

Section Auth.

(** validator.js's [isEmail], the length its [isLength] measures, and
    what a standard validation is run on for a value that is not a
    string. *)
Variable email_syntax : string -> bool.
Variable char_count : string -> nat.
Variable stringify_other : JsValue -> list (option JsValue * string).
(** Modelled from the spec: what [User.findOne({ email })] answers when
    the filter value is not a string (the cast of the absent schema
    decides), and how a field value that is not a string is cast when a
    document is built: to a string, to nothing, or not at all. *)
Variable findOne_other : option JsValue -> list User -> Err + option User.
Variable cast_other : JsValue -> Err + option string.
(** Modelled from the spec: the error [save()] rejects with when fields
    of the document failed to cast. *)
Variable validation_failed : list (string * Err) -> Err.
(** The hex string of the [n]-th ObjectId the driver generates. *)
Variable ObjectId : nat -> string.
(** bcryptjs: the salt of the given cost on the [n]-th random draw,
    the digest of a password under a salt, and the comparison of a
    password with a digest. *)
Variable genSaltSync : nat -> nat -> string.
Variable hashSync : string -> string -> string.
Variable compareSync : string -> string -> bool.
(** jws: the compact HS256 serialisation of claims under a key. *)
Variable jws_sign : Claims -> string -> string.

(** [User.findOne({ email })]: for a string, the first document whose
    email is that string. *)
Definition find_by_email (e : option JsValue) (us : list User) : Err + option User :=
  match e with
  | Some (JString s) => inr (find (fun u => bool_decide (email u = Some s)) us)
  | _ => findOne_other e us
  end.

Definition User_findOne (e : option JsValue) : M (option User) :=
  emit (FindOne e);;
  s ← get;
  match find_by_email e (users (world s)) with
  | inl err => throw err
  | inr found => mret found
  end.

(** A field value as the document holds it: a string as it is, a
    missing value as no field. *)
Definition cast (v : option JsValue) : Err + option string :=
  match v with
  | None => inr None
  | Some (JString s) => inr (Some s)
  | Some other => cast_other other
  end.

Definition cast_value (v : option JsValue) : option string :=
  match cast v with
  | inr held => held
  | inl _ => None
  end.

(** [new User({ fullName, username, email, password })]: the document
    gets its [_id] on construction, and a field that fails to cast is
    remembered for [save()].  A password that fails to cast is not
    remembered: the digest is assigned over it before any save. *)
Definition new_User (fullName username email password : option JsValue) : M Document :=
  n ← draw;
  mret {| doc := {| _id := ObjectId n;
                    fullName := cast_value fullName;
                    username := cast_value username;
                    email := cast_value email;
                    password := cast_value password |};
          invalid := failures [("fullName", cast fullName);
                               ("username", cast username);
                               ("email", cast email)] |}.

(** [user.password = hash] *)
Definition set_password (d : Document) (hash : string) : Document :=
  {| doc := {| _id := _id (doc d); fullName := fullName (doc d);
               username := username (doc d); email := email (doc d);
               password := Some hash |};
     invalid := invalid d |}.

(** Modelled from the spec: [user.save()] under the unique index: it
    rejects, storing nothing, when a field failed to cast or when the
    email is already held (the driver's duplicate-key error), and
    appends the document otherwise. *)
Definition user_save (d : Document) : M unit :=
  emit (Save (doc d));;
  s ← get;
  match invalid d with
  | _ :: _ => throw (validation_failed (invalid d))
  | [] =>
      if email_taken (email (doc d)) (users (world s))
      then throw (MongoServerError 11000 "E11000 duplicate key error")
      else modify (set_world (set_users (fun us => us ++ [doc d])))
  end.

Definition bcrypt_genSalt (rounds : nat) : M string :=
  emit (GenSalt rounds);;
  n ← draw;
  mret (genSaltSync rounds n).

(** [bcrypt.hash(s, salt)] rejects unless [s] is a string. *)
Definition bcrypt_hash (s : option JsValue) (salt : string) : M string :=
  emit Hash;;
  match s with
  | Some (JString plain) => mret (hashSync plain salt)
  | _ => throw (illegal_arguments (typeof s) "string")
  end.

(** [bcrypt.compare(s, hash)] rejects unless both are strings. *)
Definition bcrypt_compare (s : option JsValue) (hash : option string) : M bool :=
  emit Compare;;
  match s, hash with
  | Some (JString plain), Some digest => mret (compareSync plain digest)
  | _, Some _ => throw (illegal_arguments (typeof s) "string")
  | _, None => throw (illegal_arguments (typeof s) "undefined")
  end.

(** [jwt.sign(payload, secretOrPrivateKey, { expiresIn }, callback)].
    Without a key, [sign] hands the error to the callback at once,
    inside the caller's turn; otherwise the signature is produced by a
    stream and the callback gets the token in a later turn. *)
Definition jwt_sign (payload_user_id : string) (secretOrPrivateKey : option string)
    (expiresIn : Z) (callback : Err + string -> M unit) : M unit :=
  if falsy secretOrPrivateKey then
    emit (Sign false);;
    callback (inl (Error "secretOrPrivateKey must have a value"))
  else
    s ← get;
    emit (Sign true);;
    defer (callback (inr (jws_sign
      {| user_id := payload_user_id;
         iat := clock (world s);
         exp := (clock (world s) + expiresIn)%Z |}
      (toString secretOrPrivateKey)))).

(** The callback both handlers give to [jwt.sign]:
    [(err, token) => { if (err) throw err; res.cookie(...); res.json({ token }) }] *)
Definition token_callback (result : Err + string) : M unit :=
  match result with
  | inl err => throw err
  | inr token =>
      NODE_ENV ← process_env "NODE_ENV";
      res_cookie "token" token
        {| httpOnly := true;
           secure := bool_decide (NODE_ENV = Some "production") |};;
      res_json (JsonToken token)
  end.

(** The [catch (err)] block of both handlers. *)
Definition server_error (err : Err) : M unit :=
  console_error (err_message err);;
  res_status 500;;
  res_send "Server error".

(** The [try] block of [POST /signup]. *)
Definition signup_try (req : Request) : M unit :=
  let fullName := body req !! "fullName" in
  let username := body req !! "username" in
  let email := body req !! "email" in
  let password := body req !! "password" in
  found ← User_findOne email;
  match found with
  | Some _ =>
      res_status 400;;
      res_json (JsonErrors [MsgOnly "User already exists"])
  | None =>
      user ← new_User fullName username email password;
      salt ← bcrypt_genSalt 10;
      (* the await suspends this request; others run meanwhile *)
      interleave;;
      hash ← bcrypt_hash password salt;
      let user := set_password user hash in
      user_save user;;
      JWT_SECRET ← process_env "JWT_SECRET";
      jwt_sign (_id (doc user)) JWT_SECRET expiresIn_24h token_callback
  end.

(** [POST /signup] *)
Definition signup_handler (req : Request) : M unit :=
  let errors := signup_errors email_syntax char_count stringify_other req in
  if negb (no_errors errors) then
    res_status 400;;
    res_json (JsonErrors errors)
  else
    try_catch (signup_try req) server_error.

(** The [try] block of [POST /signin]. *)
Definition signin_try (req : Request) : M unit :=
  let email := body req !! "email" in
  let password := body req !! "password" in
  found ← User_findOne email;
  match found with
  | None =>
      res_status 400;;
      res_json (JsonErrors [MsgOnly "Invalid Credentials"])
  | Some user =>
      isMatch ← bcrypt_compare password (password_of user);
      if negb isMatch then
        res_status 400;;
        res_json (JsonErrors [MsgOnly "Invalid Credentials"])
      else
        JWT_SECRET ← process_env "JWT_SECRET";
        jwt_sign (_id user) JWT_SECRET expiresIn_24h token_callback
  end.

(** [POST /signin] *)
Definition signin_handler (req : Request) : M unit :=
  let errors := signin_errors email_syntax char_count stringify_other req in
  if negb (no_errors errors) then
    res_status 400;;
    res_json (JsonErrors errors)
  else
    try_catch (signin_try req) server_error.

(** [POST /signout] *)
Definition signout_handler (req : Request) : M unit :=
  res_clearCookie "token";;
  res_json (JsonMsg "Signed out successfully").

(** *** Serving a request *)

(** The queued callbacks run in order, each in its own turn; what one
    throws is caught by nobody. *)
Fixpoint event_loop (queue : list Task) (s : St) : St * list Err :=
  match queue with
  | [] => (s, [])
  | task :: queue' =>
      match task s with
      | (Returned _, s1) => event_loop queue' s1
      | (Thrown e, s1) =>
          let (s2, es) := event_loop queue' s1 in (s2, e :: es)
      end
  end.

(** The state Express starts a handler in. *)
Definition start (w : World) : St :=
  {| world := w; res := fresh_response; effects := []; stderr := [] |}.

(** Express calls the handler with the request and a fresh response,
    then the event loop drains. *)
Definition serve (handler : Request -> M unit) (req : Request) (w : World) : Run :=
  match handler req (start w) with
  | (outcome, s1, queue) =>
      let (s2, es) := event_loop queue s1 in
      {| final := s2;
         uncaught := match outcome with
                     | Thrown e => e :: es
                     | Returned _ => es
                     end |}
  end.

Definition signup : Request -> World -> Run := serve signup_handler.
Definition signin : Request -> World -> Run := serve signin_handler.
Definition signout : Request -> World -> Run := serve signout_handler.

End Auth.

(** ** The outcomes of the handlers, named *)

Section Outcomes.

Variable cast_other : JsValue -> Err + option string.
Variable ObjectId : nat -> string.
Variable genSaltSync : nat -> nat -> string.
Variable hashSync : string -> string -> string.
Variable jws_sign : Claims -> string -> string.

(** The collection once the racing requests have committed. *)
Definition committed (w : World) : list User :=
  fold_left insert_user (racing w) (users w).

(** The document a signup builds: the submitted names and email as
    cast, the digest of the submitted password under a fresh salt. *)
Definition signup_user (req : Request) (w : World) (plain : string) : User :=
  {| _id := ObjectId (entropy w);
     fullName := cast_value cast_other (body req !! "fullName");
     username := cast_value cast_other (body req !! "username");
     email := cast_value cast_other (body req !! "email");
     password := Some (hashSync plain (genSaltSync 10 (S (entropy w)))) |}.

(** The fields of a signup's document that fail to cast. *)
Definition invalid_fields (req : Request) : list (string * Err) :=
  failures [("fullName", cast cast_other (body req !! "fullName"));
            ("username", cast cast_other (body req !! "username"));
            ("email", cast cast_other (body req !! "email"))].

(** The token [jwt.sign] issues for a user id in a world. *)
Definition issued (uid : string) (w : World) (key : string) : string :=
  jws_sign {| user_id := uid; iat := clock w; exp := (clock w + expiresIn_24h)%Z |} key.

Definition token_cookie (w : World) (token : string) : SetCookie :=
  CookieSet "token" token
    {| httpOnly := true;
       secure := bool_decide (env w !! "NODE_ENV" = Some "production") |}.

Definition rejected (code : Z) (reply : Reply) : Response :=
  {| statusCode := code; set_cookies := []; sent := Some reply |}.

(** The world a signup leaves once it has drawn its id and salt and
    the racing requests have committed. *)
Definition after_save (w : World) (stored : list User) : World :=
  {| users := stored; racing := []; env := env w; clock := clock w;
     entropy := S (S (entropy w)) |}.

Definition signup_calls (req : Request) (w : World) (plain : string) : list Event :=
  [FindOne (body req !! "email"); GenSalt 10; Hash; Save (signup_user req w plain)].

Definition is_Sign (e : Event) : bool :=
  match e with
  | Sign _ => true
  | _ => false
  end.

(** How many times a request called [jwt.sign]. *)
Definition sign_attempts (calls : list Event) : nat :=
  length (filter (fun e => is_Sign e = true) calls).


(** A request is answered: a reply was sent, with one of the three
    status codes the handlers use, and nothing was left uncaught. *)
Definition answered (r : Run) : Prop :=
  is_Some (sent (res (final r))) /\
  statusCode (res (final r)) ∈ [200%Z; 400%Z; 500%Z] /\
  uncaught r = [].

(** The collaborator function an event is a call of. *)
Definition call_name (e : Event) : string :=
  match e with
  | FindOne _ => "User.findOne"
  | GenSalt _ => "bcrypt.genSalt"
  | Hash => "bcrypt.hash"
  | Compare => "bcrypt.compare"
  | Save _ => "user.save"
  | Sign _ => "jwt.sign"
  end.

(** What [bcrypt.compare] rejects with when an argument is not a
    string. *)
Definition compare_rejection (s : option JsValue) (hash : option string) : Err :=
  match hash with
  | Some _ => illegal_arguments (typeof s) "string"
  | None => illegal_arguments (typeof s) "undefined"
  end.

(** The submitted value when it is a string. *)
Definition as_string (v : option JsValue) : option string :=
  match v with
  | Some (JString s) => Some s
  | _ => None
  end.

End Outcomes.

(** ** Sample collaborators

    Small stand-ins for the library functions, used to run the handlers
    on concrete requests. *)
Module Sample.

(** Something before an [@] and something after it. *)
Definition email_syntax (s : string) : bool :=
  match index 0 "@" s with
  | Some (S n) => bool_decide (S (S n) < String.length s)
  | _ => false
  end.

(** The code points of a UTF-8 text: its bytes less the continuation
    bytes. *)
Fixpoint char_count (s : string) : nat :=
  match s with
  | String a s' =>
      let n := nat_of_ascii a in
      (if bool_decide (128 <= n /\ n < 192) then 0 else 1) + char_count s'
  | EmptyString => 0
  end.

Definition shallow (v : JsValue) : string :=
  match v with
  | JString s => s
  | JNumber literal => literal
  | JBoolean true => "true"
  | JBoolean false => "false"
  | JNull => ""
  | JArray _ => ""
  | JObject _ => "[object Object]"
  end.

(** An array is validated element by element, any other value as its
    string form. *)
Definition stringify_other (v : JsValue) : list (option JsValue * string) :=
  match v with
  | JArray items => map (fun item => (Some item, shallow item)) items
  | _ => [(Some v, shallow v)]
  end.

Definition findOne_other (e : option JsValue) (us : list User) : Err + option User :=
  inr None.

Definition cast_other (v : JsValue) : Err + option string :=
  match v with
  | JString s => inr (Some s)
  | JNumber literal => inr (Some literal)
  | JBoolean _ => inr (Some (shallow v))
  | JNull => inr None
  | _ => inl (Error "Cast to string failed")
  end.

Definition validation_failed (fields : list (string * Err)) : Err :=
  Error "User validation failed".

Definition ObjectId (n : nat) : string :=
  String.append "65f0c0ffee" (String (ascii_of_nat (48 + n)) "").

Definition genSaltSync (rounds n : nat) : string :=
  String.append "$2a$10$" (String (ascii_of_nat (65 + n)) "").

Definition hashSync (plain salt : string) : string :=
  String.append salt (String.rev plain).

Definition compareSync (plain digest : string) : bool :=
  bool_decide (String.length plain + 8 = String.length digest) &&
  bool_decide (substring 0 7 digest = "$2a$10$") &&
  bool_decide (substring 8 (String.length plain) digest = String.rev plain).

Definition jws_sign (c : Claims) (key : string) : string :=
  String.append "jwt." (String.append (user_id c) (String.append "." key)).

Definition signup :=
  signup email_syntax char_count stringify_other findOne_other cast_other
    validation_failed ObjectId genSaltSync hashSync jws_sign.

Definition signin :=
  signin email_syntax char_count stringify_other findOne_other compareSync jws_sign.

Definition signup_errors := signup_errors email_syntax char_count stringify_other.
Definition signin_errors := signin_errors email_syntax char_count stringify_other.
Definition find_by_email := find_by_email findOne_other.

(** An object whose properties are strings. *)
Definition strings (fields : list (string * string)) : gmap string JsValue :=
  list_to_map (map (fun kv => (fst kv, JString (snd kv))) fields).

(** A request with a body of strings and nothing elsewhere. *)
Definition request (fields : list (string * string)) : Request :=
  {| body := strings fields; cookies := ∅; headers := ∅; params := ∅; query := ∅ |}.

Definition world (us : list User) (vars : list (string * string)) : World :=
  {| users := us; racing := []; env := list_to_map vars;
     clock := 1700000000; entropy := 0 |}.

(** The specification's example signup. *)
Definition ann : Request :=
  request [("fullName", "Ann Lee"); ("username", "annlee");
           ("email", "ann@example.com"); ("password", "secret1")].

Definition configured : list (string * string) :=
  [("JWT_SECRET", "s3cret"); ("NODE_ENV", "production")].

(** Ann's record as her signup stores it in an empty collection. *)
Definition ann_stored : User :=
  {| _id := "65f0c0ffee0"; fullName := Some "Ann Lee";
     username := Some "annlee"; email := Some "ann@example.com";
     password := Some "$2a$10$B1terces" |}.

(** A signin for an address nobody registered, and one for Ann's
    address with a wrong password. *)
Definition bob_signin : Request :=
  request [("email", "bob@example.com"); ("password", "secret1")].

Definition ann_wrong : Request :=
  request [("email", "ann@example.com"); ("password", "wrong")].

Definition ann_signin : Request :=
  request [("email", "ann@example.com"); ("password", "secret1")].

(** A signup whose full name is a single space. *)
Definition blank_name : Request :=
  request [("fullName", " "); ("username", "annlee");
           ("email", "ann@example.com"); ("password", "secret1")].

(** A signup with no full name, a malformed email and a short password. *)
Definition sloppy : Request :=
  request [("username", "annlee"); ("email", "ann"); ("password", "12345")].

(** A signin with a malformed email and no password. *)
Definition sloppy_signin : Request := request [("email", "ann")].

(** Ann's signin again, with a cookie, a header and a body property the
    handler does not name. *)
Definition ann_signin_again : Request :=
  {| body := strings [("email", "ann@example.com"); ("password", "secret1");
                      ("remember", "yes")];
     cookies := strings [("token", "jwt.stale")];
     headers := strings [("user-agent", "curl")];
     params := ∅; query := ∅ |}.

(** A signin with an empty password. *)
Definition empty_password : Request :=
  request [("email", "ann@example.com"); ("password", "")].

(** A signin whose password is null. *)
Definition null_password : Request :=
  {| body := <["password" := JNull]> (strings [("email", "ann@example.com")]);
     cookies := ∅; headers := ∅; params := ∅; query := ∅ |}.


(** Ann's signin with a malformed email in a cookie as well. *)
Definition ann_bad_cookie : Request :=
  {| body := strings [("email", "ann@example.com"); ("password", "secret1")];
     cookies := strings [("email", "not-an-email")];
     headers := ∅; params := ∅; query := ∅ |}.

(** A signin whose password comes in a cookie only. *)
Definition cookie_password : Request :=
  {| body := strings [("email", "ann@example.com")];
     cookies := strings [("password", "secret1")];
     headers := ∅; params := ∅; query := ∅ |}.

(** Ann's signup with a number for a password. *)
Definition numeric_password : Request :=
  {| body := <["password" := JNumber "1234567"]>
               (strings [("fullName", "Ann Lee"); ("username", "annlee");
                         ("email", "ann@example.com")]);
     cookies := ∅; headers := ∅; params := ∅; query := ∅ |}.

(** Another request registers Ann's address while ours is suspended. *)
Definition race : World :=
  {| users := [];
     racing := [ {| _id := "65f0c0ffee9"; fullName := Some "Ann L.";
                    username := Some "ann2"; email := Some "ann@example.com";
                    password := Some "$2a$10$Z2terces" |} ];
     env := list_to_map configured; clock := 1700000000; entropy := 0 |}.

End Sample.

(** * Properties *)

(** ** Validation *)

Section ValidationFacts.

Variable email_syntax : string -> bool.
Variable char_count : string -> nat.
Variable stringify_other : JsValue -> list (option JsValue * string).

Abbreviation seen' := (seen stringify_other).
Abbreviation judged' := (judged email_syntax char_count stringify_other).
Abbreviation rule_errors' := (rule_errors email_syntax char_count stringify_other).
Abbreviation checked' := (checked stringify_other).
Abbreviation signup_errors' := (signup_errors email_syntax char_count stringify_other).
Abbreviation signin_errors' := (signin_errors email_syntax char_count stringify_other).

Lemma flat_map_snoc {A B} (f : A -> list B) (l : list A) (x : A) :
  flat_map f (l ++ [x]) = flat_map f l ++ f x.
Proof. rewrite flat_map_app. simpl. by rewrite app_nil_r. Qed.

(** One item on one instance pushes one error per violation, after what
    the context already holds. *)
Lemma run_item_judged (c : Chain) (item : ContextItem) (errors : list ErrorItem)
    (i : FieldInstance) :
  run_item email_syntax char_count stringify_other c item errors i =
  errors ++ map (fun vb => field_error c i (fst vb)) (List.filter snd (judged' item i)).
Proof.
  destruct item as [v negated|negated]; simpl.
  - generalize (seen' (value i)) as l. intros l. revert errors.
    induction l as [|vs l IH]; intros errors; simpl.
    + by rewrite app_nil_r.
    + rewrite IH. unfold addError.
      destruct (standard_fails email_syntax char_count v negated (snd vs)); simpl.
      * by rewrite <- app_assoc.
      * done.
  - unfold addError. destruct (exists_fails negated (value i)); simpl.
    + done.
    + by rewrite app_nil_r.
Qed.

Lemma run_instances_judged (c : Chain) (item : ContextItem)
    (instances : list FieldInstance) (errors : list ErrorItem) :
  fold_left (run_item email_syntax char_count stringify_other c item) instances errors =
  errors ++ flat_map
              (fun i => map (fun vb => field_error c i (fst vb))
                          (List.filter snd (judged' item i)))
              instances.
Proof.
  revert errors. induction instances as [|i instances IH]; intros errors; simpl.
  - by rewrite app_nil_r.
  - rewrite IH, run_item_judged. by rewrite <- app_assoc.
Qed.

Lemma run_steps_judged (req : Request) (c : Chain) (todo : list ContextItem)
    (errors : list ErrorItem) :
  run_steps email_syntax char_count stringify_other c (submitted req c) todo errors =
  errors ++ flat_map (fun item => rule_errors' req (c, item)) todo.
Proof.
  revert errors. induction todo as [|item todo IH]; intros errors; simpl.
  - by rewrite app_nil_r.
  - rewrite IH, run_instances_judged. by rewrite <- app_assoc.
Qed.

Lemma errors_of_chains (req : Request) (chains : list Chain) (contexts : list Context) :
  validationResult
    (fold_left (run_chain email_syntax char_count stringify_other req) chains contexts) =
  validationResult contexts ++
    spec_errors email_syntax char_count stringify_other chains req.
Proof.
  revert contexts.
  induction chains as [|c chains IH]; intros contexts; simpl.
  - unfold spec_errors. simpl. by rewrite app_nil_r.
  - rewrite IH. unfold run_chain, validationResult.
    rewrite flat_map_snoc. simpl.
    change (getData (selectFields req (field c))) with (submitted req c).
    rewrite run_steps_judged. simpl.
    rewrite <- app_assoc. f_equal.
    unfold spec_errors, rules. simpl.
    rewrite flat_map_app. f_equal.
    generalize (stack c) as todo.
    induction todo as [|item todo IHt]; [done|].
    simpl. by rewrite IHt.
Qed.

Lemma validation_is_spec_errors (chains : list Chain) (req : Request) :
  validationResult (run_chains email_syntax char_count stringify_other chains req) =
  spec_errors email_syntax char_count stringify_other chains req.
Proof. unfold run_chains. by rewrite errors_of_chains. Qed.

(** A rule with a standard validator leaves no error exactly when no
    string it sees fails. *)
Lemma standard_rule_passes (req : Request) (c : Chain)
    (v : StandardValidator) (negated : bool) :
  rule_errors' req (c, StandardValidation v negated) = [] <->
  Forall (fun s => standard_fails email_syntax char_count v negated s = false)
    (checked' req (field c)).
Proof.
  unfold rule_errors, checked, submitted. simpl.
  generalize (getData (selectFields req (field c))) as l.
  induction l as [|i l IH]; simpl.
  - split; [constructor | done].
  - rewrite Forall_app, <- IH. clear IH.
    split.
    + intros Hn. apply app_eq_nil in Hn as [Hi Hl]. split; [|done].
      revert Hi. generalize (seen' (value i)) as vs.
      induction vs as [|x vs IHv]; simpl; [constructor|].
      destruct (standard_fails email_syntax char_count v negated (snd x)) eqn:Hx;
        simpl; [discriminate|].
      intros Hi. constructor; [done | by apply IHv].
    + intros [Hi Hl]. rewrite Hl, app_nil_r. clear Hl.
      revert Hi. generalize (seen' (value i)) as vs.
      induction vs as [|x vs IHv]; simpl; [done|].
      intros Hi. apply Forall_cons in Hi as [Hx Hi].
      rewrite Hx. simpl. by apply IHv.
Qed.



Lemma defined_filter_nil (instances : list FieldInstance) :
  List.filter defined instances = [] <-> Forall (fun i => value i = None) instances.
Proof.
  induction instances as [|i instances IH]; simpl.
  - split; [constructor | done].
  - unfold defined at 1. destruct (value i) eqn:Hi.
    + split; [discriminate|]. intros Hf. apply Forall_cons in Hf as [Hf _].
      congruence.
    + rewrite IH. split; [by constructor|].
      intros Hf. by apply Forall_cons in Hf as [_ Hf].
Qed.

Lemma defined_filter_all (instances : list FieldInstance) :
  Forall (fun i => value i <> None) (List.filter defined instances).
Proof.
  induction instances as [|i instances IH]; simpl; [constructor|].
  unfold defined at 1. destruct (value i) eqn:Hi; [|done].
  constructor; [congruence | done].
Qed.

(** [exists()] leaves no error exactly when some location defines the
    field. *)
Lemma exists_rule_passes (req : Request) (c : Chain) :
  rule_errors' req (c, CustomValidation_exists false) = [] <->
  somewhere req (field c).
Proof.
  unfold rule_errors, submitted, somewhere, getData. cbn [fst snd judged].
  destruct (List.filter defined (selectFields req (field c))) as [|i l] eqn:Hf.
  - apply defined_filter_nil in Hf. rewrite Forall_forall in Hf.
    assert (Hin : forall l0, expandField req (field c) l0 ∈ selectFields req (field c)).
    { intros l0. apply list_elem_of_In, in_map.
      destruct l0; simpl; tauto. }
    split.
    + pose proof (Hf _ (Hin Body)) as Hb.
      cbn in Hb. unfold selectFields, locations. cbn. rewrite Hb. cbn.
      discriminate.
    + intros (l0 & _ & Hv). exfalso. apply Hv, Hf, Hin.
  - pose proof (defined_filter_all (selectFields req (field c))) as Ha.
    rewrite Hf in Ha.
    split.
    + intros _. apply Forall_cons in Ha as [Hi _].
      assert (Hin : i ∈ List.filter defined (selectFields req (field c)))
        by (rewrite Hf; left).
      apply list_elem_of_In, filter_In in Hin as [Hin _].
      apply in_map_iff in Hin as (l0 & <- & Hl0).
      exists l0. split; [by apply list_elem_of_In | done].
    + intros _. revert Ha. generalize (i :: l) as k.
      induction k as [|j k IH]; intros Ha; simpl; [done|].
      apply Forall_cons in Ha as [Hj Hk].
      unfold exists_fails. destruct (value j); [|done]. simpl. by apply IH.
Qed.

Lemma length_zero_empty (s : string) : String.length s = 0 <-> s = "".
Proof. destruct s; simpl; split; intros; congruence. Qed.

Lemma signup_errors_rules (req : Request) :
  signup_errors' req =
  rule_errors' req
    (mkChain "fullName" "Full name is required" [StandardValidation isEmpty true],
     StandardValidation isEmpty true) ++
  rule_errors' req
    (mkChain "username" "Username is required" [StandardValidation isEmpty true],
     StandardValidation isEmpty true) ++
  rule_errors' req
    (mkChain "email" "Please include a valid email" [StandardValidation isEmail false],
     StandardValidation isEmail false) ++
  rule_errors' req
    (mkChain "password" "Please enter a password with 6 or more characters"
       [StandardValidation (isLength 6) false],
     StandardValidation (isLength 6) false).
Proof.
  unfold signup_errors. rewrite validation_is_spec_errors.
  unfold spec_errors, rules, signup_checks. simpl. by rewrite app_nil_r.
Qed.

Lemma signin_errors_rules (req : Request) :
  signin_errors' req =
  rule_errors' req
    (mkChain "email" "Please include a valid email" [StandardValidation isEmail false],
     StandardValidation isEmail false) ++
  rule_errors' req
    (mkChain "password" "Password is required" [CustomValidation_exists false],
     CustomValidation_exists false).
Proof.
  unfold signin_errors. rewrite validation_is_spec_errors.
  unfold spec_errors, rules, signin_checks. simpl. by rewrite app_nil_r.
Qed.

Lemma nonempty_rule (l : list string) :
  Forall (fun s => standard_fails email_syntax char_count isEmpty true s = false) l <->
  Forall (fun s => s <> "") l.
Proof.
  apply Forall_iff. intros s. unfold standard_fails. simpl.
  rewrite bool_decide_eq_false, <- length_zero_empty.
  case_bool_decide; simpl; split; intros; congruence.
Qed.

Lemma email_rule (l : list string) :
  Forall (fun s => standard_fails email_syntax char_count isEmail false s = false) l <->
  Forall (fun s => email_syntax s = true) l.
Proof.
  apply Forall_iff. intros s. unfold standard_fails. simpl.
  rewrite bool_decide_eq_false.
  destruct (email_syntax s); simpl; split; intros; congruence.
Qed.

Lemma length_rule (min : nat) (l : list string) :
  Forall (fun s => standard_fails email_syntax char_count (isLength min) false s = false) l <->
  Forall (fun s => min <= char_count s) l.
Proof.
  apply Forall_iff. intros s. unfold standard_fails. simpl.
  rewrite bool_decide_eq_false.
  case_bool_decide; simpl; split; intros; (congruence || lia).
Qed.

(** What a request that passes the signup chains looks like. *)
Lemma signup_errors_nil (req : Request) :
  signup_errors' req = [] <->
    Forall (fun s => s <> "") (checked' req "fullName") /\
    Forall (fun s => s <> "") (checked' req "username") /\
    Forall (fun s => email_syntax s = true) (checked' req "email") /\
    Forall (fun s => 6 <= char_count s) (checked' req "password").
Proof.
  rewrite signup_errors_rules.
  rewrite !app_nil, !standard_rule_passes. simpl.
  by rewrite !nonempty_rule, email_rule, length_rule.
Qed.

Lemma signin_errors_nil (req : Request) :
  signin_errors' req = [] <->
    Forall (fun s => email_syntax s = true) (checked' req "email") /\
    somewhere req "password".
Proof.
  rewrite signin_errors_rules.
  rewrite !app_nil, standard_rule_passes, exists_rule_passes. simpl.
  by rewrite email_rule.
Qed.

Lemma not_Forall_iff_Exists {A} (P Q : A -> Prop) (l : list A) :
  (forall x, P x \/ Q x) ->
  (forall x, P x -> Q x -> False) ->
  (~ Forall P l <-> Exists Q l).
Proof.
  intros Hpq Hno. induction l as [|x l IH].
  - split; [intros Hn; exfalso; apply Hn; constructor | intros Hx; inversion Hx].
  - rewrite Forall_cons, Exists_cons, <- IH.
    destruct (Hpq x) as [Hp|Hq].
    + split; [intros Hn; right; tauto | intros [Hq|Hn]; [exfalso; eauto | tauto]].
    + split; [intros _; by left | intros _ [Hp _]; eauto].
Qed.

(** C4 (amended). Signup validation rejects exactly the requests in
    which some submitted instance of a field breaks its rule, where the
    instances of a field are its values in the body, the cookies, the
    headers, the route parameters and the query string (the body's
    missing value when no location has one), each as the validator
    turns it into a string: fullName and username are not the empty
    string (they are not trimmed, so a name made of whitespace passes),
    email matches the email syntax, and password has six characters or
    more. *)
Theorem signup_validation_rejects_iff (req : Request) :
  signup_errors' req <> [] <->
    Exists (fun s => s = "") (checked' req "fullName") \/
    Exists (fun s => s = "") (checked' req "username") \/
    Exists (fun s => email_syntax s = false) (checked' req "email") \/
    Exists (fun s => char_count s < 6) (checked' req "password").
Proof.
  rewrite signup_errors_nil.
  rewrite <- (not_Forall_iff_Exists (fun s => s <> "") (fun s => s = "")
                (checked' req "fullName")).
  2: { intros s. destruct (decide (s = "")); tauto. }
  2: { intros s Hn He. by apply Hn. }
  rewrite <- (not_Forall_iff_Exists (fun s => s <> "") (fun s => s = "")
                (checked' req "username")).
  2: { intros s. destruct (decide (s = "")); tauto. }
  2: { intros s Hn He. by apply Hn. }
  rewrite <- (not_Forall_iff_Exists (fun s => email_syntax s = true)
                (fun s => email_syntax s = false) (checked' req "email")).
  2: { intros s. destruct (email_syntax s); tauto. }
  2: { intros s Ht Hf. congruence. }
  rewrite <- (not_Forall_iff_Exists (fun s => 6 <= char_count s)
                (fun s => char_count s < 6) (checked' req "password")).
  2: { intros s. lia. }
  2: { intros s Ht Hf. lia. }
  assert (Hn : Decision (Forall (fun s => s <> "") (checked' req "fullName")))
    by (apply Forall_dec; intros s; apply _).
  assert (Hu : Decision (Forall (fun s => s <> "") (checked' req "username")))
    by (apply Forall_dec; intros s; apply _).
  assert (He : Decision (Forall (fun s => email_syntax s = true)
                           (checked' req "email")))
    by (apply Forall_dec; intros s; apply _).
  assert (Hp : Decision (Forall (fun s => 6 <= char_count s)
                           (checked' req "password")))
    by (apply Forall_dec; intros s; apply _).
  destruct Hn, Hu, He, Hp; tauto.
Qed.

(** X2. Signin validation rejects exactly the requests in which some
    submitted instance of email fails the email syntax, or in which no
    location (body, cookies, headers, route parameters, query string)
    has a password.  A password that is present passes whatever it is:
    in particular any value in the body does, the empty string and null
    included. *)
Theorem signin_validation_rejects_iff (req : Request) :
  (signin_errors' req <> [] <->
     Exists (fun s => email_syntax s = false) (checked' req "email") \/
     ~ somewhere req "password") /\
  (forall v, body req !! "password" = Some v -> somewhere req "password").
Proof.
  split.
  - rewrite signin_errors_nil.
    rewrite <- (not_Forall_iff_Exists (fun s => email_syntax s = true)
                  (fun s => email_syntax s = false) (checked' req "email")).
    2: { intros s. destruct (email_syntax s); tauto. }
    2: { intros s Ht Hf. congruence. }
    assert (He : Decision (Forall (fun s => email_syntax s = true)
                             (checked' req "email")))
      by (apply Forall_dec; intros s; apply _).
    destruct He; tauto.
  - intros v Hb. exists Body. split; [left|]. simpl. by rewrite Hb.
Qed.

End ValidationFacts.

(** ** The paths through the handlers *)

Section Handlers.

Variable email_syntax : string -> bool.
Variable char_count : string -> nat.
Variable stringify_other : JsValue -> list (option JsValue * string).
Variable findOne_other : option JsValue -> list User -> Err + option User.
Variable cast_other : JsValue -> Err + option string.
Variable validation_failed : list (string * Err) -> Err.
Variable ObjectId : nat -> string.
Variable genSaltSync : nat -> nat -> string.
Variable hashSync : string -> string -> string.
Variable compareSync : string -> string -> bool.
Variable jws_sign : Claims -> string -> string.

Abbreviation run_signup :=
  (signup email_syntax char_count stringify_other findOne_other cast_other
     validation_failed ObjectId genSaltSync hashSync jws_sign).
Abbreviation run_signin :=
  (signin email_syntax char_count stringify_other findOne_other compareSync jws_sign).
Abbreviation try_signup :=
  (signup_try findOne_other cast_other validation_failed ObjectId genSaltSync
     hashSync jws_sign).
Abbreviation try_signin := (signin_try findOne_other compareSync jws_sign).
Abbreviation up_errors := (signup_errors email_syntax char_count stringify_other).
Abbreviation in_errors := (signin_errors email_syntax char_count stringify_other).
Abbreviation lookup := (find_by_email findOne_other).
Abbreviation stored := (cast_value cast_other).
Abbreviation bad_fields := (invalid_fields cast_other).
Abbreviation new_user := (signup_user cast_other ObjectId genSaltSync hashSync).
Abbreviation calls := (signup_calls cast_other ObjectId genSaltSync hashSync).
Abbreviation token_for := (issued jws_sign).
Abbreviation strings_checked := (checked stringify_other).

(** Running a handler symbolically: unfold the monad and the
    collaborator calls, and let the matches on known constructors
    fire. *)
Ltac run_monad :=
  cbv beta iota zeta delta
    [try_catch mbind M_bind mret M_ret throw get modify defer emit
     res_status res_json res_send res_cookie res_clearCookie console_error
     process_env User_findOne user_save interleave draw new_User
     set_password bcrypt_genSalt bcrypt_hash bcrypt_compare jwt_sign
     token_callback server_error event_loop set_world set_res set_users
     signup_try signin_try no_errors start doc invalid
     world res effects stderr users racing env clock entropy
     statusCode set_cookies sent fresh_response password_of
     _id email password err_message rejected fst snd app negb].

Ltac use_facts :=
  repeat match goal with
         | H : ?l = _ |- context [?l] => rewrite H
         end.

(** Run, use what is known of the collaborators' answers, run on. *)
Ltac run := repeat (run_monad; progress use_facts); run_monad.

Ltac open_world w :=
  destruct w as [us rc ev ck en];
  unfold committed, invalid_fields in *; cbn [users racing env clock entropy] in *.

Lemma signup_invalid (req : Request) (w : World) :
  up_errors req <> [] ->
  run_signup req w =
  {| final := {| world := w;
                 res := rejected 400 (JsonErrors (up_errors req));
                 effects := []; stderr := [] |};
     uncaught := [] |}.
Proof.
  intros Hv. unfold signup, serve, signup_handler.
  destruct (up_errors req); [done|]. reflexivity.
Qed.

Lemma signup_lookup_fails (req : Request) (w : World) (e : Err) :
  up_errors req = [] ->
  lookup (body req !! "email") (users w) = inl e ->
  try_signup req (start w) =
    (Thrown e,
     {| world := w; res := fresh_response;
        effects := [FindOne (body req !! "email")]; stderr := [] |}, []) /\
  run_signup req w =
  {| final := {| world := w;
                 res := rejected 500 (Text "Server error");
                 effects := [FindOne (body req !! "email")];
                 stderr := [err_message e] |};
     uncaught := [] |}.
Proof.
  intros Hv Hf. unfold signup, serve, signup_handler. rewrite Hv.
  open_world w. split; run; reflexivity.
Qed.

Lemma signup_duplicate (req : Request) (w : World) (u : User) :
  up_errors req = [] ->
  lookup (body req !! "email") (users w) = inr (Some u) ->
  run_signup req w =
  {| final := {| world := w;
                 res := rejected 400 (JsonErrors [MsgOnly "User already exists"]);
                 effects := [FindOne (body req !! "email")]; stderr := [] |};
     uncaught := [] |}.
Proof.
  intros Hv Hf. unfold signup, serve, signup_handler. rewrite Hv.
  open_world w. run. reflexivity.
Qed.

Lemma signup_unhashable (req : Request) (w : World) :
  up_errors req = [] ->
  lookup (body req !! "email") (users w) = inr None ->
  as_string (body req !! "password") = None ->
  let e := illegal_arguments (typeof (body req !! "password")) "string" in
  (exists s1 q, try_signup req (start w) = (Thrown e, s1, q)) /\
  run_signup req w =
  {| final := {| world := after_save w (committed w);
                 res := rejected 500 (Text "Server error");
                 effects := [FindOne (body req !! "email"); GenSalt 10; Hash];
                 stderr := [err_message e] |};
     uncaught := [] |}.
Proof.
  intros Hv Hf Hp. unfold signup, serve, signup_handler. rewrite Hv.
  open_world w.
  destruct (body req !! "password") as [[]|] eqn:Hpw; try discriminate Hp;
    (split; [do 2 eexists|]); run; reflexivity.
Qed.

Lemma signup_uncastable (req : Request) (w : World) (plain : string)
    (f : string * Err) (fs : list (string * Err)) :
  up_errors req = [] ->
  lookup (body req !! "email") (users w) = inr None ->
  body req !! "password" = Some (JString plain) ->
  bad_fields req = f :: fs ->
  (exists s1 q, try_signup req (start w) = (Thrown (validation_failed (f :: fs)), s1, q)) /\
  run_signup req w =
  {| final := {| world := after_save w (committed w);
                 res := rejected 500 (Text "Server error");
                 effects := calls req w plain;
                 stderr := [err_message (validation_failed (f :: fs))] |};
     uncaught := [] |}.
Proof.
  intros Hv Hf Hp Hb. unfold signup, serve, signup_handler. rewrite Hv.
  open_world w. (split; [do 2 eexists|]); run; reflexivity.
Qed.

Lemma signup_conflict (req : Request) (w : World) (plain : string) :
  up_errors req = [] ->
  lookup (body req !! "email") (users w) = inr None ->
  body req !! "password" = Some (JString plain) ->
  bad_fields req = [] ->
  email_taken (stored (body req !! "email")) (committed w) = true ->
  let e := MongoServerError 11000 "E11000 duplicate key error" in
  (exists s1 q, try_signup req (start w) = (Thrown e, s1, q)) /\
  run_signup req w =
  {| final := {| world := after_save w (committed w);
                 res := rejected 500 (Text "Server error");
                 effects := calls req w plain;
                 stderr := [err_message e] |};
     uncaught := [] |}.
Proof.
  intros Hv Hf Hp Hb Ht. unfold signup, serve, signup_handler. rewrite Hv.
  open_world w. (split; [do 2 eexists|]); run; reflexivity.
Qed.

Lemma signup_unsigned (req : Request) (w : World) (plain : string) :
  up_errors req = [] ->
  lookup (body req !! "email") (users w) = inr None ->
  body req !! "password" = Some (JString plain) ->
  bad_fields req = [] ->
  email_taken (stored (body req !! "email")) (committed w) = false ->
  falsy (env w !! "JWT_SECRET") = true ->
  let e := Error "secretOrPrivateKey must have a value" in
  (exists s1 q, try_signup req (start w) = (Thrown e, s1, q)) /\
  run_signup req w =
  {| final := {| world := after_save w (committed w ++ [new_user req w plain]);
                 res := rejected 500 (Text "Server error");
                 effects := calls req w plain ++ [Sign false];
                 stderr := [err_message e] |};
     uncaught := [] |}.
Proof.
  intros Hv Hf Hp Hb Ht Hk. unfold signup, serve, signup_handler. rewrite Hv.
  open_world w. (split; [do 2 eexists|]); run; reflexivity.
Qed.

Lemma signup_signed (req : Request) (w : World) (plain : string) :
  up_errors req = [] ->
  lookup (body req !! "email") (users w) = inr None ->
  body req !! "password" = Some (JString plain) ->
  bad_fields req = [] ->
  email_taken (stored (body req !! "email")) (committed w) = false ->
  falsy (env w !! "JWT_SECRET") = false ->
  let token := token_for (ObjectId (entropy w)) w (toString (env w !! "JWT_SECRET")) in
  run_signup req w =
  {| final := {| world := after_save w (committed w ++ [new_user req w plain]);
                 res := {| statusCode := 200;
                           set_cookies := [token_cookie w token];
                           sent := Some (JsonToken token) |};
                 effects := calls req w plain ++ [Sign true];
                 stderr := [] |};
     uncaught := [] |}.
Proof.
  intros Hv Hf Hp Hb Ht Hk. unfold signup, serve, signup_handler. rewrite Hv.
  open_world w. run. reflexivity.
Qed.

Lemma signin_invalid (req : Request) (w : World) :
  in_errors req <> [] ->
  run_signin req w =
  {| final := {| world := w;
                 res := rejected 400 (JsonErrors (in_errors req));
                 effects := []; stderr := [] |};
     uncaught := [] |}.
Proof.
  intros Hv. unfold signin, serve, signin_handler.
  destruct (in_errors req); [done|]. reflexivity.
Qed.

Lemma signin_lookup_fails (req : Request) (w : World) (e : Err) :
  in_errors req = [] ->
  lookup (body req !! "email") (users w) = inl e ->
  (exists s1 q, try_signin req (start w) = (Thrown e, s1, q)) /\
  run_signin req w =
  {| final := {| world := w;
                 res := rejected 500 (Text "Server error");
                 effects := [FindOne (body req !! "email")];
                 stderr := [err_message e] |};
     uncaught := [] |}.
Proof.
  intros Hv Hf. unfold signin, serve, signin_handler. rewrite Hv.
  open_world w. (split; [do 2 eexists|]); run; reflexivity.
Qed.

Lemma signin_unknown (req : Request) (w : World) :
  in_errors req = [] ->
  lookup (body req !! "email") (users w) = inr None ->
  run_signin req w =
  {| final := {| world := w;
                 res := rejected 400 (JsonErrors [MsgOnly "Invalid Credentials"]);
                 effects := [FindOne (body req !! "email")]; stderr := [] |};
     uncaught := [] |}.
Proof.
  intros Hv Hf. unfold signin, serve, signin_handler. rewrite Hv.
  open_world w. run. reflexivity.
Qed.

(** A password that is not a string, or a stored record without a
    digest, makes [bcrypt.compare] reject. *)
Lemma signin_uncomparable (req : Request) (w : World) (u : User) :
  in_errors req = [] ->
  lookup (body req !! "email") (users w) = inr (Some u) ->
  as_string (body req !! "password") = None \/ password u = None ->
  let e := compare_rejection (body req !! "password") (password u) in
  (exists s1 q, try_signin req (start w) = (Thrown e, s1, q)) /\
  run_signin req w =
  {| final := {| world := w;
                 res := rejected 500 (Text "Server error");
                 effects := [FindOne (body req !! "email"); Compare];
                 stderr := [err_message e] |};
     uncaught := [] |}.
Proof.
  intros Hv Hf Hp. unfold signin, serve, signin_handler. rewrite Hv.
  open_world w. destruct u as [i fn un em [digest|]]; cbn [password] in *;
    destruct (body req !! "password") as [[]|] eqn:Hpw;
    try (destruct Hp as [Hp|Hp]; discriminate Hp);
    (split; [do 2 eexists|]); run; reflexivity.
Qed.

Lemma signin_mismatch (req : Request) (w : World) (u : User) (plain digest : string) :
  in_errors req = [] ->
  lookup (body req !! "email") (users w) = inr (Some u) ->
  body req !! "password" = Some (JString plain) ->
  password u = Some digest ->
  compareSync plain digest = false ->
  run_signin req w =
  {| final := {| world := w;
                 res := rejected 400 (JsonErrors [MsgOnly "Invalid Credentials"]);
                 effects := [FindOne (body req !! "email"); Compare]; stderr := [] |};
     uncaught := [] |}.
Proof.
  intros Hv Hf Hp Hd Hc. unfold signin, serve, signin_handler. rewrite Hv.
  open_world w. destruct u as [i fn un em pw]; cbn [password] in Hd; subst pw.
  run. reflexivity.
Qed.

Lemma signin_unsigned (req : Request) (w : World) (u : User) (plain digest : string) :
  in_errors req = [] ->
  lookup (body req !! "email") (users w) = inr (Some u) ->
  body req !! "password" = Some (JString plain) ->
  password u = Some digest ->
  compareSync plain digest = true ->
  falsy (env w !! "JWT_SECRET") = true ->
  let e := Error "secretOrPrivateKey must have a value" in
  (exists s1 q, try_signin req (start w) = (Thrown e, s1, q)) /\
  run_signin req w =
  {| final := {| world := w;
                 res := rejected 500 (Text "Server error");
                 effects := [FindOne (body req !! "email"); Compare; Sign false];
                 stderr := [err_message e] |};
     uncaught := [] |}.
Proof.
  intros Hv Hf Hp Hd Hc Hk. unfold signin, serve, signin_handler. rewrite Hv.
  open_world w. destruct u as [i fn un em pw]; cbn [password] in Hd; subst pw.
  (split; [do 2 eexists|]); run; reflexivity.
Qed.

Lemma signin_signed (req : Request) (w : World) (u : User) (plain digest : string) :
  in_errors req = [] ->
  lookup (body req !! "email") (users w) = inr (Some u) ->
  body req !! "password" = Some (JString plain) ->
  password u = Some digest ->
  compareSync plain digest = true ->
  falsy (env w !! "JWT_SECRET") = false ->
  let token := token_for (_id u) w (toString (env w !! "JWT_SECRET")) in
  run_signin req w =
  {| final := {| world := w;
                 res := {| statusCode := 200;
                           set_cookies := [token_cookie w token];
                           sent := Some (JsonToken token) |};
                 effects := [FindOne (body req !! "email"); Compare; Sign true];
                 stderr := [] |};
     uncaught := [] |}.
Proof.
  intros Hv Hf Hp Hd Hc Hk. unfold signin, serve, signin_handler. rewrite Hv.
  open_world w. destruct u as [i fn un em pw]; cbn [password] in Hd; subst pw.
  run. reflexivity.
Qed.

Lemma signout_always (req : Request) (w : World) :
  signout req w =
  {| final := {| world := w;
                 res := {| statusCode := 200;
                           set_cookies := [CookieClear "token"];
                           sent := Some (JsonMsg "Signed out successfully") |};
                 effects := []; stderr := [] |};
     uncaught := [] |}.
Proof. reflexivity. Qed.

(** *** Which path a request takes *)

Lemma nil_or_not {A} (l : list A) : l = [] \/ l <> [].
Proof. destruct l; [by left | by right]. Qed.

Lemma as_string_Some (v : option JsValue) (s : string) :
  as_string v = Some s -> v = Some (JString s).
Proof. destruct v as [[]|]; simpl; congruence. Qed.

Lemma insert_user_extends (us : list User) (u : User) :
  exists more, insert_user us u = us ++ more.
Proof.
  unfold insert_user. destruct (email_taken _ _).
  - exists []. by rewrite app_nil_r.
  - by exists [u].
Qed.

Lemma committed_extends (w : World) :
  exists more, committed w = users w ++ more.
Proof.
  unfold committed. generalize (users w) as us.
  induction (racing w) as [|u rc IH]; intros us; simpl.
  - exists []. by rewrite app_nil_r.
  - destruct (insert_user_extends us u) as [m1 ->].
    destruct (IH (us ++ m1)) as [m2 ->].
    exists (m1 ++ m2). by rewrite app_assoc.
Qed.

Lemma find_by_email_taken (e : string) (us : list User) :
  lookup (Some (JString e)) us = inr None <-> email_taken (Some e) us = false.
Proof.
  unfold find_by_email, email_taken.
  rewrite bool_decide_eq_false.
  induction us as [|u us IH]; simpl.
  - split; [intros _ Hx; inversion Hx | done].
  - rewrite Exists_cons. case_bool_decide.
    + split; [discriminate | intros Hn; exfalso; apply Hn; by left].
    + rewrite IH. tauto.
Qed.

Lemma find_by_email_string (e : string) (us : list User) :
  exists found, lookup (Some (JString e)) us = inr found.
Proof. unfold find_by_email. eauto. Qed.

(** A record found before the save is still there at the save. *)
Lemma fresh_at_save (e : string) (w : World) :
  email_taken (Some e) (committed w) = false ->
  lookup (Some (JString e)) (users w) = inr None.
Proof.
  intros Ht. apply find_by_email_taken.
  destruct (committed_extends w) as [more Hm]. rewrite Hm in Ht.
  unfold email_taken in *. rewrite bool_decide_eq_false in *.
  rewrite Exists_app in Ht. tauto.
Qed.

(** A document built from strings has no field that failed to cast. *)
Lemma strings_cast (req : Request) (fn un e : string) :
  body req !! "fullName" = Some (JString fn) ->
  body req !! "username" = Some (JString un) ->
  body req !! "email" = Some (JString e) ->
  bad_fields req = [] /\ stored (body req !! "email") = Some e.
Proof.
  intros Hn Hu He. unfold invalid_fields, cast_value. by rewrite Hn, Hu, He.
Qed.

(** Every signup takes one of eight paths; [signup_paths] splits a goal
    about [run_signup req w] along them and rewrites the run. *)
Ltac signup_paths req w :=
  let Hv := fresh "Hv" in
  let Hf := fresh "Hf" in
  let Hp := fresh "Hp" in
  let Hb := fresh "Hb" in
  let Ht := fresh "Ht" in
  let Hk := fresh "Hk" in
  let e := fresh "e" in
  let u := fresh "u" in
  let plain := fresh "plain" in
  let f := fresh "f" in
  let fs := fresh "fs" in
  destruct (nil_or_not (up_errors req)) as [Hv|Hv];
  [ destruct (lookup (body req !! "email") (users w)) as [e|[u|]] eqn:Hf;
    [ rewrite (proj2 (signup_lookup_fails req w e Hv Hf))
    | rewrite (signup_duplicate req w u Hv Hf)
    | destruct (as_string (body req !! "password")) as [plain|] eqn:Hp;
      [ apply as_string_Some in Hp;
        destruct (bad_fields req) as [|f fs] eqn:Hb;
        [ destruct (email_taken (stored (body req !! "email")) (committed w)) eqn:Ht;
          [ rewrite (proj2 (signup_conflict req w plain Hv Hf Hp Hb Ht))
          | destruct (falsy (env w !! "JWT_SECRET")) eqn:Hk;
            [ rewrite (proj2 (signup_unsigned req w plain Hv Hf Hp Hb Ht Hk))
            | rewrite (signup_signed req w plain Hv Hf Hp Hb Ht Hk) ] ]
        | rewrite (proj2 (signup_uncastable req w plain f fs Hv Hf Hp Hb)) ]
      | rewrite (proj2 (signup_unhashable req w Hv Hf Hp)) ] ]
  | rewrite (signup_invalid req w Hv) ].

(** Every signin takes one of seven paths. *)
Ltac signin_paths req w :=
  let Hv := fresh "Hv" in
  let Hf := fresh "Hf" in
  let Hp := fresh "Hp" in
  let Hd := fresh "Hd" in
  let Hc := fresh "Hc" in
  let Hk := fresh "Hk" in
  let e := fresh "e" in
  let u := fresh "u" in
  let plain := fresh "plain" in
  let digest := fresh "digest" in
  destruct (nil_or_not (in_errors req)) as [Hv|Hv];
  [ destruct (lookup (body req !! "email") (users w)) as [e|[u|]] eqn:Hf;
    [ rewrite (proj2 (signin_lookup_fails req w e Hv Hf))
    | destruct (as_string (body req !! "password")) as [plain|] eqn:Hp;
      [ apply as_string_Some in Hp;
        destruct (password u) as [digest|] eqn:Hd;
        [ destruct (compareSync plain digest) eqn:Hc;
          [ destruct (falsy (env w !! "JWT_SECRET")) eqn:Hk;
            [ rewrite (proj2 (signin_unsigned req w u plain digest Hv Hf Hp Hd Hc Hk))
            | rewrite (signin_signed req w u plain digest Hv Hf Hp Hd Hc Hk) ]
          | rewrite (signin_mismatch req w u plain digest Hv Hf Hp Hd Hc) ]
        | rewrite (proj2 (signin_uncomparable req w u Hv Hf (or_intror Hd))) ]
      | rewrite (proj2 (signin_uncomparable req w u Hv Hf (or_introl Hp))) ]
    | rewrite (signin_unknown req w Hv Hf) ]
  | rewrite (signin_invalid req w Hv) ].

Ltac not_among H :=
  repeat (apply elem_of_cons in H as [H|H]; [discriminate H|]);
  try (apply elem_of_nil in H; destruct H).

(** No handler lets an exception escape. *)
Lemma nothing_uncaught (req : Request) (w : World) :
  uncaught (run_signup req w) = [] /\
  uncaught (run_signin req w) = [] /\
  uncaught (signout req w) = [].
Proof.
  split; [|split; [|reflexivity]].
  - signup_paths req w; reflexivity.
  - signin_paths req w; reflexivity.
Qed.

(** A signin leaves the world as it found it. *)
Lemma signin_world (req : Request) (w : World) :
  world (final (run_signin req w)) = w.
Proof. signin_paths req w; reflexivity. Qed.


(** ** The claims *)


(** C2. A signup or signin whose validation leaves a non-empty error
    list is answered with status 400 and that list, and nothing else
    happens: no call on the store, on the hasher or on the signer is
    made, nothing is logged and the world is as it was. *)
Theorem invalid_request_has_no_effect (req : Request) (w : World) :
  (up_errors req <> [] ->
     res (final (run_signup req w)) =
       rejected 400 (JsonErrors (up_errors req)) /\
     effects (final (run_signup req w)) = [] /\
     world (final (run_signup req w)) = w /\
     stderr (final (run_signup req w)) = []) /\
  (in_errors req <> [] ->
     res (final (run_signin req w)) =
       rejected 400 (JsonErrors (in_errors req)) /\
     effects (final (run_signin req w)) = [] /\
     world (final (run_signin req w)) = w /\
     stderr (final (run_signin req w)) = []).
Proof.
  split; intros Hv.
  - by rewrite (signup_invalid req w Hv).
  - by rewrite (signin_invalid req w Hv).
Qed.

(** C10. Whatever the outcome of a signin (validation failure, unknown
    email, password mismatch, signing failure or success), the world
    after it is the world before it: the stored user records are
    unchanged, signin only reads them. *)
Theorem signin_reads_only (req : Request) (w : World) :
  world (final (run_signin req w)) = w /\
  users (world (final (run_signin req w))) = users w /\
  forall doc, Save doc ∉ effects (final (run_signin req w)).
Proof.
  signin_paths req w; simpl; (split; [done | split; [done|]]);
    intros doc Hin; repeat (apply elem_of_cons in Hin as [Hin|Hin]; [done|]);
    by apply elem_of_nil in Hin.
Qed.

(** C3 (amended). A signup that passes validation and the lookup but
    whose save meets the uniqueness conflict of a concurrent signup is
    answered with status 500 and the text "Server error", like any
    other failure inside the handler.  No record of this request is
    stored (the collection holds what was there and what the other
    requests committed), and no cookie or token is issued. *)
Theorem signup_conflict_is_server_error (req : Request) (w : World) :
  up_errors req = [] ->
  lookup (body req !! "email") (users w) = inr None ->
  email_taken (stored (body req !! "email")) (committed w) = true ->
  res (final (run_signup req w)) = rejected 500 (Text "Server error") /\
  users (world (final (run_signup req w))) = committed w /\
  uncaught (run_signup req w) = [].
Proof.
  intros Hv0 Hf0 Ht0.
  signup_paths req w; try done; congruence.
Qed.




(** C7. Whatever the request and whether or not it carries a session
    cookie, signout clears the cookie named token and answers status
    200 with the message "Signed out successfully".  It cannot fail:
    nothing is thrown and nothing else is touched. *)
Theorem signout_always_succeeds (req : Request) (w : World) :
  res (final (signout req w)) =
    {| statusCode := 200; set_cookies := [CookieClear "token"];
       sent := Some (JsonMsg "Signed out successfully") |} /\
  uncaught (signout req w) = [] /\
  world (final (signout req w)) = w /\
  effects (final (signout req w)) = [].
Proof. by rewrite signout_always. Qed.

(** C8. When signup or signin succeeds, the token in the response body
    is the signature, under the configured secret, of the payload with
    the user's id, issued now and expiring 24 hours later; the same
    token is set in one cookie named token, which is httpOnly and is
    secure exactly when NODE_ENV is production; the status is 200.
    For signup the id is that of the record just stored, for signin
    that of the record found by email. *)
Theorem issued_token_and_cookie (req : Request) (w : World) (token : string) :
  (sent (res (final (run_signup req w))) = Some (JsonToken token) ->
     exists key u,
       env w !! "JWT_SECRET" = Some key /\
       u ∈ users (world (final (run_signup req w))) /\
       email u = stored (body req !! "email") /\
       token = jws_sign {| user_id := _id u; iat := clock w;
                           exp := (clock w + 24 * 60 * 60)%Z |} key /\
       set_cookies (res (final (run_signup req w))) =
         [CookieSet "token" token
            {| httpOnly := true;
               secure := bool_decide (env w !! "NODE_ENV" = Some "production") |}] /\
       statusCode (res (final (run_signup req w))) = 200%Z) /\
  (sent (res (final (run_signin req w))) = Some (JsonToken token) ->
     exists key u,
       env w !! "JWT_SECRET" = Some key /\
       lookup (body req !! "email") (users w) = inr (Some u) /\
       token = jws_sign {| user_id := _id u; iat := clock w;
                           exp := (clock w + 24 * 60 * 60)%Z |} key /\
       set_cookies (res (final (run_signin req w))) =
         [CookieSet "token" token
            {| httpOnly := true;
               secure := bool_decide (env w !! "NODE_ENV" = Some "production") |}] /\
       statusCode (res (final (run_signin req w))) = 200%Z).
Proof.
  split.
  - signup_paths req w; simpl; intros Hs; try discriminate Hs.
    injection Hs as <-.
    destruct (env w !! "JWT_SECRET") as [key|] eqn:Hkey; [|discriminate Hk].
    exists key, (new_user req w plain). simpl.
    split; [done|]. split; [apply elem_of_app; right; left|].
    done.
  - signin_paths req w; simpl; intros Hs; try discriminate Hs.
    injection Hs as <-.
    destruct (env w !! "JWT_SECRET") as [key|] eqn:Hkey; [|discriminate Hk].
    exists key, u. done.
Qed.

(** C9. When token signing fails during a signup or a signin, the
    caller gets status 500 with the text "Server error", and
    jwt.sign was called once in the whole request: the failure is not
    retried. *)
Theorem signing_failure_is_500_once (req : Request) (w : World) :
  (Sign false ∈ effects (final (run_signup req w)) ->
     res (final (run_signup req w)) = rejected 500 (Text "Server error") /\
     sign_attempts (effects (final (run_signup req w))) = 1) /\
  (Sign false ∈ effects (final (run_signin req w)) ->
     res (final (run_signin req w)) = rejected 500 (Text "Server error") /\
     sign_attempts (effects (final (run_signin req w))) = 1).
Proof.
  split.
  - signup_paths req w; simpl; intros Hin; solve [not_among Hin | done].
  - signin_paths req w; simpl; intros Hin; solve [not_among Hin | done].
Qed.

(** ** Further properties of the handlers *)

(** X1. A valid signup whose email a stored record already holds is
    answered 400 "User already exists", whatever the other fields are.
    The lookup is the only call made: nothing is hashed, saved or
    signed, nothing is logged, and the world is as it was. *)
Theorem signup_existing_email_rejected (req : Request) (w : World) (e : string) :
  up_errors req = [] ->
  body req !! "email" = Some (JString e) ->
  email_taken (Some e) (users w) = true ->
  res (final (run_signup req w)) =
    rejected 400 (JsonErrors [MsgOnly "User already exists"]) /\
  effects (final (run_signup req w)) = [FindOne (Some (JString e))] /\
  world (final (run_signup req w)) = w /\
  stderr (final (run_signup req w)) = [].
Proof.
  intros Hv He Ht.
  destruct (find_by_email_string e (users w)) as [[u|] Hf].
  - rewrite <- He in Hf. rewrite (signup_duplicate req w u Hv Hf). by rewrite He.
  - apply find_by_email_taken in Hf. rewrite Hf in Ht. discriminate Ht.
Qed.

Lemma agree_selectFields (req req' : Request) (f : string) :
  agree_on req req' f -> selectFields req f = selectFields req' f.
Proof.
  intros Ha. unfold selectFields. apply map_ext. intros l.
  specialize (Ha l). unfold expandField in *. simpl in *. by rewrite Ha.
Qed.

Lemma agree_body (req req' : Request) (f : string) :
  agree_on req req' f -> body req !! f = body req' !! f.
Proof. intros Ha. apply (Ha Body). Qed.

(** X3. The handlers read nothing of the request but the properties
    named after their fields, in the body, the cookies, the headers,
    the route parameters and the query string: two requests that agree
    on email and password there get the same signin, and if they also
    agree on fullName and username the same signup, whatever else they
    carry.  Signout does not read the request at all. *)
Theorem handlers_read_named_fields_only (req req' : Request) (w : World) :
  agree_on req req' "email" ->
  agree_on req req' "password" ->
  run_signin req w = run_signin req' w /\
  (agree_on req req' "fullName" ->
   agree_on req req' "username" ->
   run_signup req w = run_signup req' w) /\
  signout req w = signout req' w.
Proof.
  intros He Hp. split; [|split; [|reflexivity]].
  - unfold signin, serve, signin_handler, signin_try.
    rewrite !signin_errors_rules. unfold rule_errors, submitted. simpl.
    rewrite (agree_selectFields _ _ _ He), (agree_selectFields _ _ _ Hp).
    rewrite (agree_body _ _ _ He), (agree_body _ _ _ Hp). reflexivity.
  - intros Hn Hu. unfold signup, serve, signup_handler, signup_try.
    rewrite !signup_errors_rules. unfold rule_errors, submitted. simpl.
    rewrite (agree_selectFields _ _ _ He), (agree_selectFields _ _ _ Hp),
      (agree_selectFields _ _ _ Hn), (agree_selectFields _ _ _ Hu).
    rewrite (agree_body _ _ _ He), (agree_body _ _ _ Hp),
      (agree_body _ _ _ Hn), (agree_body _ _ _ Hu). reflexivity.
Qed.

(** X4. A valid signin calls bcrypt.compare exactly when the lookup
    finds a record: for an unknown email the hasher is never called, so
    the calls made tell the two 400 answers apart even though the
    responses do not. *)
Theorem signin_compares_iff_found (req : Request) (w : World) :
  in_errors req = [] ->
  (Compare ∈ effects (final (run_signin req w)) <->
   exists u, lookup (body req !! "email") (users w) = inr (Some u)).
Proof.
  intros Hv0.
  signin_paths req w; try done; simpl; split;
    try (intros [u' Hu']); try intros Hin;
    solve [ done | discriminate | not_among Hin | repeat constructor | eauto ].
Qed.

(** X5. Every signup, signin and signout is answered: a reply is sent,
    its status is 200, 400 or 500, and no exception escapes the
    handler. *)
Theorem every_request_is_answered (req : Request) (w : World) :
  answered (run_signup req w) /\
  answered (run_signin req w) /\
  answered (signout req w).
Proof.
  unfold answered. split; [|split].
  - signup_paths req w; simpl; (split; [eauto|split; [|done]]);
      repeat constructor.
  - signin_paths req w; simpl; (split; [eauto|split; [|done]]);
      repeat constructor.
  - rewrite signout_always. simpl. split; [eauto|split; [|done]].
    repeat constructor.
Qed.

(** X6. For signup and signin alike, the status is 200 exactly when the
    body is a token, and a response that is not a token sets no cookie:
    no error answer carries a session. *)
Theorem token_iff_ok (req : Request) (w : World) :
  ((statusCode (res (final (run_signup req w))) = 200%Z <->
    exists token, sent (res (final (run_signup req w))) = Some (JsonToken token)) /\
   (statusCode (res (final (run_signup req w))) <> 200%Z ->
    set_cookies (res (final (run_signup req w))) = [])) /\
  ((statusCode (res (final (run_signin req w))) = 200%Z <->
    exists token, sent (res (final (run_signin req w))) = Some (JsonToken token)) /\
   (statusCode (res (final (run_signin req w))) <> 200%Z ->
    set_cookies (res (final (run_signin req w))) = [])).
Proof.
  split.
  - signup_paths req w; simpl;
      (split; [split; [intros Hs; solve [discriminate Hs | eauto]
                      | intros [token Hs]; solve [discriminate Hs | done]]
              | intros Hs; solve [done | by destruct Hs]]).
  - signin_paths req w; simpl;
      (split; [split; [intros Hs; solve [discriminate Hs | eauto]
                      | intros [token Hs]; solve [discriminate Hs | done]]
              | intros Hs; solve [done | by destruct Hs]]).
Qed.

(** X7. A 500 answer of signup or signin always has the body
    "Server error", whatever was thrown, and console.error got exactly
    one line: the message of the exception the try block threw.  Any
    other answer logs nothing.  The text of the error goes to the log,
    never to the caller. *)
Theorem server_error_is_logged_not_echoed (req : Request) (w : World) :
  ((statusCode (res (final (run_signup req w))) = 500%Z ->
    sent (res (final (run_signup req w))) = Some (Text "Server error") /\
    exists e s1 q,
      try_signup req (start w) = (Thrown e, s1, q) /\
      stderr (final (run_signup req w)) = [err_message e]) /\
   (statusCode (res (final (run_signup req w))) <> 500%Z ->
    stderr (final (run_signup req w)) = [])) /\
  ((statusCode (res (final (run_signin req w))) = 500%Z ->
    sent (res (final (run_signin req w))) = Some (Text "Server error") /\
    exists e s1 q,
      try_signin req (start w) = (Thrown e, s1, q) /\
      stderr (final (run_signin req w)) = [err_message e]) /\
   (statusCode (res (final (run_signin req w))) <> 500%Z ->
    stderr (final (run_signin req w)) = [])).
Proof.
  split.
  - destruct (nil_or_not (up_errors req)) as [Hv|Hv];
      [|rewrite (signup_invalid req w Hv); simpl; split; [discriminate|done]].
    destruct (lookup (body req !! "email") (users w)) as [e|[u|]] eqn:Hf.
    + destruct (signup_lookup_fails req w e Hv Hf) as [Ht ->]. simpl.
      split; [|done]. intros _. split; [done|]. eauto.
    + rewrite (signup_duplicate req w u Hv Hf). simpl. split; [discriminate|done].
    + destruct (as_string (body req !! "password")) as [plain|] eqn:Hp.
      * apply as_string_Some in Hp.
        destruct (bad_fields req) as [|f fs] eqn:Hb.
        -- destruct (email_taken (stored (body req !! "email")) (committed w)) eqn:Ht.
           ++ destruct (signup_conflict req w plain Hv Hf Hp Hb Ht)
                as [(s1 & q & Hthrow) ->]. simpl.
              split; [|done]. intros _. split; [done|]. eauto.
           ++ destruct (falsy (env w !! "JWT_SECRET")) eqn:Hk.
              ** destruct (signup_unsigned req w plain Hv Hf Hp Hb Ht Hk)
                   as [(s1 & q & Hthrow) ->]. simpl.
                 split; [|done]. intros _. split; [done|]. eauto.
              ** rewrite (signup_signed req w plain Hv Hf Hp Hb Ht Hk). simpl.
                 split; [discriminate|done].
        -- destruct (signup_uncastable req w plain f fs Hv Hf Hp Hb)
             as [(s1 & q & Hthrow) ->]. simpl.
           split; [|done]. intros _. split; [done|]. eauto.
      * destruct (signup_unhashable req w Hv Hf Hp) as [(s1 & q & Hthrow) ->]. simpl.
        split; [|done]. intros _. split; [done|]. eauto.
  - destruct (nil_or_not (in_errors req)) as [Hv|Hv];
      [|rewrite (signin_invalid req w Hv); simpl; split; [discriminate|done]].
    destruct (lookup (body req !! "email") (users w)) as [e|[u|]] eqn:Hf.
    + destruct (signin_lookup_fails req w e Hv Hf) as [(s1 & q & Hthrow) ->]. simpl.
      split; [|done]. intros _. split; [done|]. eauto.
    + destruct (as_string (body req !! "password")) as [plain|] eqn:Hp.
      * apply as_string_Some in Hp.
        destruct (password u) as [digest|] eqn:Hd.
        -- destruct (compareSync plain digest) eqn:Hc.
           ++ destruct (falsy (env w !! "JWT_SECRET")) eqn:Hk.
              ** destruct (signin_unsigned req w u plain digest Hv Hf Hp Hd Hc Hk)
                   as [(s1 & q & Hthrow) ->]. simpl.
                 split; [|done]. intros _. split; [done|]. eauto.
              ** rewrite (signin_signed req w u plain digest Hv Hf Hp Hd Hc Hk). simpl.
                 split; [discriminate|done].
           ++ rewrite (signin_mismatch req w u plain digest Hv Hf Hp Hd Hc). simpl.
              split; [discriminate|done].
        -- destruct (signin_uncomparable req w u Hv Hf (or_intror Hd))
             as [(s1 & q & Hthrow) ->]. simpl.
           split; [|done]. intros _. split; [done|]. eauto.
      * destruct (signin_uncomparable req w u Hv Hf (or_introl Hp))
          as [(s1 & q & Hthrow) ->]. simpl.
        split; [|done]. intros _. split; [done|]. eauto.
    + rewrite (signin_unknown req w Hv Hf). simpl. split; [discriminate|done].
Qed.


Lemma find_by_email_appended (e : string) (us : list User) (u : User) :
  email_taken (Some e) us = false ->
  email u = Some e ->
  lookup (Some (JString e)) (us ++ [u]) = inr (Some u).
Proof.
  unfold email_taken, find_by_email. rewrite bool_decide_eq_false.
  intros Hn He. f_equal. induction us as [|v us IH]; simpl.
  - by rewrite bool_decide_true.
  - rewrite Exists_cons in Hn.
    rewrite bool_decide_false by tauto. apply IH. tauto.
Qed.

(** The collection a signup of strings leaves when its email is free at
    the save. *)
Lemma signup_saved (req : Request) (w : World) (fn un e plain : string) :
  up_errors req = [] ->
  body req !! "fullName" = Some (JString fn) ->
  body req !! "username" = Some (JString un) ->
  body req !! "email" = Some (JString e) ->
  body req !! "password" = Some (JString plain) ->
  email_taken (Some e) (committed w) = false ->
  world (final (run_signup req w)) =
    after_save w (committed w ++ [new_user req w plain]) /\
  email (new_user req w plain) = Some e.
Proof.
  intros Hv Hn Hu He Hp Ht.
  pose proof (fresh_at_save e w Ht) as Hf.
  destruct (strings_cast req fn un e Hn Hu He) as [Hb Hs].
  rewrite <- He in Hf. rewrite <- Hs in Ht.
  split; [|done].
  destruct (falsy (env w !! "JWT_SECRET")) eqn:Hk.
  - by rewrite (proj2 (signup_unsigned req w plain Hv Hf Hp Hb Ht Hk)).
  - by rewrite (signup_signed req w plain Hv Hf Hp Hb Ht Hk).
Qed.

(** X9. Signup then signin: after a valid signup whose body gives its
    four fields as strings, with a fresh email, a valid signin with
    that email and the same password is answered 200 with a token for
    the id of the record the signup stored, provided the signing secret
    is configured and bcrypt accepts the password against its own
    digest.  A valid signin with that email and a password bcrypt does
    not accept against that digest is answered 400
    "Invalid Credentials". *)
Theorem signup_then_signin (req req' : Request) (w : World) (fn un e plain : string) :
  up_errors req = [] ->
  body req !! "fullName" = Some (JString fn) ->
  body req !! "username" = Some (JString un) ->
  body req !! "email" = Some (JString e) ->
  body req !! "password" = Some (JString plain) ->
  email_taken (Some e) (committed w) = false ->
  in_errors req' = [] ->
  body req' !! "email" = Some (JString e) ->
  (body req' !! "password" = Some (JString plain) ->
   compareSync plain (hashSync plain (genSaltSync 10 (S (entropy w)))) = true ->
   falsy (env w !! "JWT_SECRET") = false ->
   statusCode (res (final (run_signin req' (world (final (run_signup req w)))))) = 200%Z /\
   sent (res (final (run_signin req' (world (final (run_signup req w)))))) =
     Some (JsonToken (jws_sign
       {| user_id := ObjectId (entropy w); iat := clock w;
          exp := (clock w + 24 * 60 * 60)%Z |}
       (toString (env w !! "JWT_SECRET"))))) /\
  (forall other,
     body req' !! "password" = Some (JString other) ->
     compareSync other (hashSync plain (genSaltSync 10 (S (entropy w)))) = false ->
     res (final (run_signin req' (world (final (run_signup req w))))) =
       rejected 400 (JsonErrors [MsgOnly "Invalid Credentials"])).
Proof.
  intros Hv Hn Hu He Hp Ht Hv' He'.
  destruct (signup_saved req w fn un e plain Hv Hn Hu He Hp Ht) as [-> Hem].
  assert (Hf : lookup (body req' !! "email")
                 (users (after_save w (committed w ++ [new_user req w plain])))
               = inr (Some (new_user req w plain))).
  { rewrite He'. simpl. by apply find_by_email_appended. }
  split.
  - intros Hp' Hc Hk.
    by rewrite (signin_signed req' _ _ plain _ Hv' Hf Hp' eq_refl Hc Hk).
  - intros other Hp' Hc.
    by rewrite (signin_mismatch req' _ _ other _ Hv' Hf Hp' eq_refl Hc).
Qed.

(** X10. Signup twice: once a valid signup whose body gives its four
    fields as strings, with a fresh email, has run, a second valid
    signup with the same email in its body is answered 400
    "User already exists" and changes nothing.  This holds even when
    the first signup was answered 500 because signing failed: its
    record was stored before the token was signed and stays stored. *)
Theorem signup_twice_is_duplicate
    (req req' : Request) (w : World) (fn un e plain : string) :
  up_errors req = [] ->
  body req !! "fullName" = Some (JString fn) ->
  body req !! "username" = Some (JString un) ->
  body req !! "email" = Some (JString e) ->
  body req !! "password" = Some (JString plain) ->
  email_taken (Some e) (committed w) = false ->
  up_errors req' = [] ->
  body req' !! "email" = Some (JString e) ->
  res (final (run_signup req' (world (final (run_signup req w))))) =
    rejected 400 (JsonErrors [MsgOnly "User already exists"]) /\
  world (final (run_signup req' (world (final (run_signup req w))))) =
    world (final (run_signup req w)).
Proof.
  intros Hv Hn Hu He Hp Ht Hv' He'.
  destruct (signup_saved req w fn un e plain Hv Hn Hu He Hp Ht) as [-> Hem].
  assert (Hf : lookup (body req' !! "email")
                 (users (after_save w (committed w ++ [new_user req w plain])))
               = inr (Some (new_user req w plain))).
  { rewrite He'. simpl. by apply find_by_email_appended. }
  by rewrite (signup_duplicate req' _ _ Hv' Hf).
Qed.

(** X12. The calls of a request follow a fixed protocol.  A signup
    calls, in this order and each at most once, User.findOne,
    bcrypt.genSalt, bcrypt.hash, user.save and jwt.sign, and stops at
    the first step that ends the request; a signin calls User.findOne,
    bcrypt.compare and jwt.sign in the same way; a signout calls none
    of them. *)
Theorem calls_follow_protocol (req : Request) (w : World) :
  call_name <$> effects (final (run_signup req w))
    `prefix_of` ["User.findOne"; "bcrypt.genSalt"; "bcrypt.hash"; "user.save"; "jwt.sign"] /\
  call_name <$> effects (final (run_signin req w))
    `prefix_of` ["User.findOne"; "bcrypt.compare"; "jwt.sign"] /\
  effects (final (signout req w)) = [].
Proof.
  split; [|split; [|reflexivity]].
  - signup_paths req w; simpl; by eexists.
  - signin_paths req w; simpl; by eexists.
Qed.

(** X13. A signup reaches the hasher exactly when the request passes
    validation and the lookup answers that no record has its email; it
    goes on to attempt a save exactly when, in addition, the body's
    password is a string, which is what bcrypt.hash accepts.  An
    invalid request or a known email costs no hashing and attempts no
    write. *)
Theorem signup_hashes_iff_fresh (req : Request) (w : World) :
  (Hash ∈ effects (final (run_signup req w)) <->
   up_errors req = [] /\
   lookup (body req !! "email") (users w) = inr None) /\
  ((exists doc, Save doc ∈ effects (final (run_signup req w))) <->
   up_errors req = [] /\
   lookup (body req !! "email") (users w) = inr None /\
   exists plain, body req !! "password" = Some (JString plain)).
Proof.
  signup_paths req w; simpl;
    (split;
     [ split; [intros Hin | intros [Hv' Hf']]
     | split; [intros [doc Hin] | intros (Hv' & Hf' & plain' & Hp')] ]);
    solve [ done | discriminate | not_among Hin | repeat constructor
          | eexists; repeat constructor | eauto 10
          | rewrite Hp' in Hp; discriminate Hp ].
Qed.

End Handlers.

(** ** The claims on concrete requests *)


Lemma invalid_request_has_no_effect_witness :
  let w := Sample.world [Sample.ann_stored] Sample.configured in
  (Sample.signup_errors Sample.sloppy <> [] /\
   res (final (Sample.signup Sample.sloppy w)) =
     rejected 400 (JsonErrors (Sample.signup_errors Sample.sloppy)) /\
   effects (final (Sample.signup Sample.sloppy w)) = [] /\
   world (final (Sample.signup Sample.sloppy w)) = w /\
   stderr (final (Sample.signup Sample.sloppy w)) = []) /\
  (Sample.signin_errors Sample.sloppy_signin <> [] /\
   res (final (Sample.signin Sample.sloppy_signin w)) =
     rejected 400 (JsonErrors (Sample.signin_errors Sample.sloppy_signin)) /\
   effects (final (Sample.signin Sample.sloppy_signin w)) = [] /\
   world (final (Sample.signin Sample.sloppy_signin w)) = w /\
   stderr (final (Sample.signin Sample.sloppy_signin w)) = []).
Proof.
  intros w.
  assert (Hup : Sample.signup_errors Sample.sloppy <> [])
    by (vm_compute; discriminate).
  assert (Hin : Sample.signin_errors Sample.sloppy_signin <> [])
    by (vm_compute; discriminate).
  split; (split; [assumption|]).
  - exact (proj1 (invalid_request_has_no_effect
           Sample.email_syntax Sample.char_count Sample.stringify_other
           Sample.findOne_other Sample.cast_other Sample.validation_failed
           Sample.ObjectId Sample.genSaltSync Sample.hashSync
           Sample.compareSync Sample.jws_sign
           Sample.sloppy w) Hup).
  - exact (proj2 (invalid_request_has_no_effect
           Sample.email_syntax Sample.char_count Sample.stringify_other
           Sample.findOne_other Sample.cast_other Sample.validation_failed
           Sample.ObjectId Sample.genSaltSync Sample.hashSync
           Sample.compareSync Sample.jws_sign
           Sample.sloppy_signin w) Hin).
Defined.

(** C3, as stated, fails: Ann's signup passes validation and the lookup,
    another request stores her address before the save, and the answer is
    500 "Server error", not 400 "User already exists". *)
Lemma signup_conflict_not_duplicate_error :
  Sample.signup_errors Sample.ann = [] /\
  Sample.find_by_email (body Sample.ann !! "email") (users Sample.race) = inr None /\
  email_taken (cast_value Sample.cast_other (body Sample.ann !! "email"))
    (committed Sample.race) = true /\
  res (final (Sample.signup Sample.ann Sample.race)) =
    rejected 500 (Text "Server error") /\
  res (final (Sample.signup Sample.ann Sample.race)) <>
    rejected 400 (JsonErrors [MsgOnly "User already exists"]).
Proof. vm_compute. repeat split; discriminate. Qed.

Lemma signup_conflict_is_server_error_witness :
  res (final (Sample.signup Sample.ann Sample.race)) =
    rejected 500 (Text "Server error") /\
  users (world (final (Sample.signup Sample.ann Sample.race))) =
    committed Sample.race /\
  uncaught (Sample.signup Sample.ann Sample.race) = [].
Proof.
  apply (signup_conflict_is_server_error
           Sample.email_syntax Sample.char_count Sample.stringify_other
           Sample.findOne_other Sample.cast_other Sample.validation_failed
           Sample.ObjectId Sample.genSaltSync Sample.hashSync Sample.jws_sign
           Sample.ann Sample.race);
    vm_compute; reflexivity.
Defined.

(** C4, as stated, fails: a full name that is a single space is empty
    after trimming, yet the signup chains accept the request. *)
Lemma whitespace_name_accepted :
  Sample.signup_errors Sample.blank_name = [] /\
  trim (text (body Sample.blank_name !! "fullName")) = "" /\
  ~ spec_signup_valid Sample.email_syntax Sample.char_count Sample.blank_name.
Proof.
  split; [vm_compute; reflexivity|].
  split; [vm_compute; reflexivity|].
  intros (Hn & _). apply Hn. vm_compute. reflexivity.
Qed.

Lemma signup_validation_rejects_iff_witness :
  Sample.signup_errors Sample.sloppy <> [] /\
  Sample.signup_errors Sample.numeric_password = [].
Proof.
  split.
  - apply (signup_validation_rejects_iff Sample.email_syntax Sample.char_count Sample.stringify_other Sample.sloppy).
    left. vm_compute. left. reflexivity.
  - vm_compute. reflexivity.
Defined.





Lemma issued_token_and_cookie_witness :
  let w := Sample.world [Sample.ann_stored] Sample.configured in
  (exists key u,
     env w !! "JWT_SECRET" = Some key /\
     Sample.find_by_email (body Sample.ann_signin !! "email") (users w) = inr (Some u) /\
     "jwt.65f0c0ffee0.s3cret" =
       Sample.jws_sign {| user_id := _id u; iat := clock w;
                          exp := (clock w + 24 * 60 * 60)%Z |} key /\
     set_cookies (res (final (Sample.signin Sample.ann_signin w))) =
       [CookieSet "token" "jwt.65f0c0ffee0.s3cret"
          {| httpOnly := true;
             secure := bool_decide (env w !! "NODE_ENV" = Some "production") |}] /\
     statusCode (res (final (Sample.signin Sample.ann_signin w))) = 200%Z) /\
  sent (res (final (Sample.signup Sample.ann (Sample.world [] Sample.configured)))) =
    Some (JsonToken "jwt.65f0c0ffee0.s3cret").
Proof.
  intros w. split.
  - apply (issued_token_and_cookie
           Sample.email_syntax Sample.char_count Sample.stringify_other
           Sample.findOne_other Sample.cast_other Sample.validation_failed
           Sample.ObjectId Sample.genSaltSync Sample.hashSync
           Sample.compareSync Sample.jws_sign
           Sample.ann_signin w "jwt.65f0c0ffee0.s3cret").
    vm_compute. reflexivity.
  - vm_compute. reflexivity.
Defined.

Lemma signing_failure_is_500_once_witness :
  let w := Sample.world [Sample.ann_stored] [] in
  (res (final (Sample.signup Sample.ann (Sample.world [] []))) =
     rejected 500 (Text "Server error") /\
   sign_attempts (effects (final (Sample.signup Sample.ann (Sample.world [] [])))) = 1) /\
  (res (final (Sample.signin Sample.ann_signin w)) =
     rejected 500 (Text "Server error") /\
   sign_attempts (effects (final (Sample.signin Sample.ann_signin w))) = 1).
Proof.
  intros w. split.
  - apply (signing_failure_is_500_once
           Sample.email_syntax Sample.char_count Sample.stringify_other
           Sample.findOne_other Sample.cast_other Sample.validation_failed
           Sample.ObjectId Sample.genSaltSync Sample.hashSync
           Sample.compareSync Sample.jws_sign
           Sample.ann (Sample.world [] [])).
    vm_compute. do 4 right. left.
  - apply (signing_failure_is_500_once
           Sample.email_syntax Sample.char_count Sample.stringify_other
           Sample.findOne_other Sample.cast_other Sample.validation_failed
           Sample.ObjectId Sample.genSaltSync Sample.hashSync
           Sample.compareSync Sample.jws_sign
           Sample.ann_signin w).
    vm_compute. do 2 right. left.
Defined.

(** ** The further properties on concrete requests *)

Lemma signup_existing_email_rejected_witness :
  let w := Sample.world [Sample.ann_stored] Sample.configured in
  res (final (Sample.signup Sample.blank_name w)) =
    rejected 400 (JsonErrors [MsgOnly "User already exists"]) /\
  effects (final (Sample.signup Sample.blank_name w)) =
    [FindOne (Some (JString "ann@example.com"))] /\
  world (final (Sample.signup Sample.blank_name w)) = w /\
  stderr (final (Sample.signup Sample.blank_name w)) = [].
Proof.
  apply (signup_existing_email_rejected
           Sample.email_syntax Sample.char_count Sample.stringify_other
           Sample.findOne_other Sample.cast_other Sample.validation_failed
           Sample.ObjectId Sample.genSaltSync Sample.hashSync
           Sample.compareSync Sample.jws_sign
           Sample.blank_name
           (Sample.world [Sample.ann_stored] Sample.configured)
           "ann@example.com");
    vm_compute; reflexivity.
Defined.

Lemma signin_validation_rejects_iff_witness :
  Sample.signin_errors Sample.ann_bad_cookie <> [] /\
  somewhere Sample.null_password "password" /\
  Sample.signin_errors Sample.null_password = [] /\
  Sample.signin_errors Sample.cookie_password = [].
Proof.
  split; [|split; [|split]].
  - apply (signin_validation_rejects_iff Sample.email_syntax Sample.char_count Sample.stringify_other Sample.ann_bad_cookie).
    left. vm_compute. right. left. reflexivity.
  - apply (signin_validation_rejects_iff Sample.email_syntax Sample.char_count Sample.stringify_other Sample.null_password) with (v := JNull).
    vm_compute. reflexivity.
  - vm_compute. reflexivity.
  - vm_compute. reflexivity.
Defined.

Lemma handlers_read_named_fields_only_witness :
  let w := Sample.world [Sample.ann_stored] Sample.configured in
  Sample.signin Sample.ann_signin w = Sample.signin Sample.ann_signin_again w /\
  (agree_on Sample.ann_signin Sample.ann_signin_again "fullName" ->
   agree_on Sample.ann_signin Sample.ann_signin_again "username" ->
   Sample.signup Sample.ann_signin w = Sample.signup Sample.ann_signin_again w) /\
  signout Sample.ann_signin w = signout Sample.ann_signin_again w.
Proof.
  apply (handlers_read_named_fields_only
           Sample.email_syntax Sample.char_count Sample.stringify_other
           Sample.findOne_other Sample.cast_other Sample.validation_failed
           Sample.ObjectId Sample.genSaltSync Sample.hashSync
           Sample.compareSync Sample.jws_sign
           Sample.ann_signin Sample.ann_signin_again
           (Sample.world [Sample.ann_stored] Sample.configured));
    intros []; vm_compute; reflexivity.
Defined.

Lemma signin_compares_iff_found_witness :
  let w := Sample.world [Sample.ann_stored] Sample.configured in
  Compare ∈ effects (final (Sample.signin Sample.ann_wrong w)) /\
  Compare ∉ effects (final (Sample.signin Sample.bob_signin w)).
Proof.
  intros w. split.
  - apply (signin_compares_iff_found
           Sample.email_syntax Sample.char_count Sample.stringify_other
           Sample.findOne_other Sample.compareSync Sample.jws_sign
           Sample.ann_wrong w).
    + vm_compute. reflexivity.
    + exists Sample.ann_stored. vm_compute. reflexivity.
  - intros Hin.
    apply (signin_compares_iff_found
           Sample.email_syntax Sample.char_count Sample.stringify_other
           Sample.findOne_other Sample.compareSync Sample.jws_sign
           Sample.bob_signin w) in Hin.
    + destruct Hin as [u Hu]. vm_compute in Hu. discriminate Hu.
    + vm_compute. reflexivity.
Defined.

Lemma token_iff_ok_witness :
  (exists token,
     sent (res (final (Sample.signup Sample.ann (Sample.world [] Sample.configured)))) =
       Some (JsonToken token)) /\
  set_cookies (res (final (Sample.signin Sample.ann_wrong
                 (Sample.world [Sample.ann_stored] Sample.configured)))) = [].
Proof.
  split.
  - apply (token_iff_ok
           Sample.email_syntax Sample.char_count Sample.stringify_other
           Sample.findOne_other Sample.cast_other Sample.validation_failed
           Sample.ObjectId Sample.genSaltSync Sample.hashSync
           Sample.compareSync Sample.jws_sign
           Sample.ann (Sample.world [] Sample.configured)).
    vm_compute. reflexivity.
  - apply (token_iff_ok
           Sample.email_syntax Sample.char_count Sample.stringify_other
           Sample.findOne_other Sample.cast_other Sample.validation_failed
           Sample.ObjectId Sample.genSaltSync Sample.hashSync
           Sample.compareSync Sample.jws_sign
           Sample.ann_wrong (Sample.world [Sample.ann_stored] Sample.configured)).
    vm_compute. discriminate.
Defined.

Lemma server_error_is_logged_not_echoed_witness :
  (sent (res (final (Sample.signup Sample.numeric_password
                       (Sample.world [] Sample.configured)))) =
     Some (Text "Server error") /\
   stderr (final (Sample.signup Sample.numeric_password
                    (Sample.world [] Sample.configured))) =
     ["Illegal arguments: number, string"]) /\
  stderr (final (Sample.signin Sample.ann_wrong
            (Sample.world [Sample.ann_stored] Sample.configured))) = [].
Proof.
  split.
  - destruct (server_error_is_logged_not_echoed
           Sample.email_syntax Sample.char_count Sample.stringify_other
           Sample.findOne_other Sample.cast_other Sample.validation_failed
           Sample.ObjectId Sample.genSaltSync Sample.hashSync
           Sample.compareSync Sample.jws_sign
           Sample.numeric_password (Sample.world [] Sample.configured))
      as [[Hup _] _].
    destruct Hup as [Hs _]; [vm_compute; reflexivity|].
    split; [exact Hs | vm_compute; reflexivity].
  - apply (server_error_is_logged_not_echoed
           Sample.email_syntax Sample.char_count Sample.stringify_other
           Sample.findOne_other Sample.cast_other Sample.validation_failed
           Sample.ObjectId Sample.genSaltSync Sample.hashSync
           Sample.compareSync Sample.jws_sign
           Sample.ann_wrong (Sample.world [Sample.ann_stored] Sample.configured)).
    vm_compute. discriminate.
Defined.


Lemma signup_then_signin_witness :
  let w := Sample.world [] Sample.configured in
  let w' := world (final (Sample.signup Sample.ann w)) in
  (statusCode (res (final (Sample.signin Sample.ann_signin w'))) = 200%Z /\
   sent (res (final (Sample.signin Sample.ann_signin w'))) =
     Some (JsonToken "jwt.65f0c0ffee0.s3cret")) /\
  res (final (Sample.signin Sample.ann_wrong w')) =
    rejected 400 (JsonErrors [MsgOnly "Invalid Credentials"]).
Proof.
  intros w w'. split.
  - apply (signup_then_signin
           Sample.email_syntax Sample.char_count Sample.stringify_other
           Sample.findOne_other Sample.cast_other Sample.validation_failed
           Sample.ObjectId Sample.genSaltSync Sample.hashSync
           Sample.compareSync Sample.jws_sign
           Sample.ann Sample.ann_signin w
           "Ann Lee" "annlee" "ann@example.com" "secret1");
      vm_compute; reflexivity.
  - apply (signup_then_signin
           Sample.email_syntax Sample.char_count Sample.stringify_other
           Sample.findOne_other Sample.cast_other Sample.validation_failed
           Sample.ObjectId Sample.genSaltSync Sample.hashSync
           Sample.compareSync Sample.jws_sign
           Sample.ann Sample.ann_wrong w
           "Ann Lee" "annlee" "ann@example.com" "secret1")
      with (other := "wrong");
      vm_compute; reflexivity.
Defined.

Lemma signup_twice_is_duplicate_witness :
  let w := Sample.world [] [] in
  statusCode (res (final (Sample.signup Sample.ann w))) = 500%Z /\
  res (final (Sample.signup Sample.blank_name (world (final (Sample.signup Sample.ann w))))) =
    rejected 400 (JsonErrors [MsgOnly "User already exists"]) /\
  world (final (Sample.signup Sample.blank_name (world (final (Sample.signup Sample.ann w))))) =
    world (final (Sample.signup Sample.ann w)).
Proof.
  intros w. split; [vm_compute; reflexivity|].
  apply (signup_twice_is_duplicate
           Sample.email_syntax Sample.char_count Sample.stringify_other
           Sample.findOne_other Sample.cast_other Sample.validation_failed
           Sample.ObjectId Sample.genSaltSync Sample.hashSync
           Sample.compareSync Sample.jws_sign
           Sample.ann Sample.blank_name w
           "Ann Lee" "annlee" "ann@example.com" "secret1");
    vm_compute; reflexivity.
Defined.

Lemma signup_hashes_iff_fresh_witness :
  Hash ∈ effects (final (Sample.signup Sample.numeric_password
                    (Sample.world [] Sample.configured))) /\
  (exists doc, Save doc ∈ effects (final (Sample.signup Sample.ann
                                 (Sample.world [] Sample.configured)))) /\
  ~ (exists doc, Save doc ∈ effects (final (Sample.signup Sample.numeric_password
                                   (Sample.world [] Sample.configured)))).
Proof.
  split; [|split].
  - apply (signup_hashes_iff_fresh
           Sample.email_syntax Sample.char_count Sample.stringify_other
           Sample.findOne_other Sample.cast_other Sample.validation_failed
           Sample.ObjectId Sample.genSaltSync Sample.hashSync Sample.jws_sign
           Sample.numeric_password (Sample.world [] Sample.configured)).
    split; vm_compute; reflexivity.
  - apply (signup_hashes_iff_fresh
           Sample.email_syntax Sample.char_count Sample.stringify_other
           Sample.findOne_other Sample.cast_other Sample.validation_failed
           Sample.ObjectId Sample.genSaltSync Sample.hashSync Sample.jws_sign
           Sample.ann (Sample.world [] Sample.configured)).
    split; [|split]; [vm_compute; reflexivity | vm_compute; reflexivity |].
    exists "secret1". vm_compute. reflexivity.
  - intros Hin.
    apply (signup_hashes_iff_fresh
           Sample.email_syntax Sample.char_count Sample.stringify_other
           Sample.findOne_other Sample.cast_other Sample.validation_failed
           Sample.ObjectId Sample.genSaltSync Sample.hashSync Sample.jws_sign
           Sample.numeric_password (Sample.world [] Sample.configured)) in Hin.
    destruct Hin as (_ & _ & plain & Hp). vm_compute in Hp. discriminate Hp.
Defined.
